(** * HVAC commissioning logger: the test-result computation engine

    A shallow embedding of [src/lib/calculations.ts] (the numeric and
    threshold-check primitives) and of [src/lib/test-computations.ts] (the
    ten per-test-type routines and the dispatcher [computeTestResult]),
    followed by the properties the specification states about them.

    JavaScript numbers are IEEE 754 binary64 values; they are modelled by
    Rocq's primitive floats, whose operations round to nearest-even as
    JavaScript's do.  The purely arithmetic primitives are written once over
    an [Arithmetic] signature, so that the same definition can be read in
    binary64 (what runs) and in exact real arithmetic (what the psychrometric
    formulas mean). *)

From Stdlib Require Import ZArith QArith Floats Reals Lia Lra Bool List String Ascii.
Import ListNotations.

Set Implicit Arguments.

(** ** Arithmetic signature *)

Declare Scope js_scope.
Delimit Scope js_scope with js.

(** The operations the numeric primitives use: decimal literals, the four
    arithmetic operators, [===], [<=], [<] and [Math.log]. *)
Class Arithmetic (num : Type) : Type := {
  lit : Q -> num;
  add : num -> num -> num;
  sub : num -> num -> num;
  mul : num -> num -> num;
  div : num -> num -> num;
  strict_eq : num -> num -> bool;
  le : num -> num -> bool;
  lt : num -> num -> bool;
  Math_log : num -> num
}.

Arguments lit {num _} q%_Q.

(** [a >= b] and [a > b] are [b <= a] and [b < a] with the operands swapped,
    as in ECMA-262 (both are false when an operand is NaN). *)
Definition ge {num} `{Arithmetic num} (a b : num) : bool := le b a.
Definition gt {num} `{Arithmetic num} (a b : num) : bool := lt b a.

Notation "x + y" := (add x y) : js_scope.
Notation "x - y" := (sub x y) : js_scope.
Notation "x * y" := (mul x y) : js_scope.
Notation "x / y" := (div x y) : js_scope.
Notation "x === y" := (strict_eq x y) (at level 70, no associativity) : js_scope.
Notation "x <= y" := (le x y) : js_scope.
Notation "x < y" := (lt x y) : js_scope.
Notation "x >= y" := (ge x y) : js_scope.
Notation "x > y" := (gt x y) : js_scope.
Notation "# q" := (lit q) (at level 1, q at level 0, format "# q") : js_scope.

(** ** calculations.ts: numeric primitives *)

Section NumericPrimitives.
Context {num : Type} `{Arithmetic num}.
Local Open Scope js_scope.

(** [calculateDewPoint(tempF, rh)]: Magnus formula.  [x * 5/9] parses as
    [(x * 5) / 9] in JavaScript. *)
Definition calculateDewPoint (tempF rh : num) : num :=
  let tempC := (tempF - #32) * #5 / #9 in
  let a := #17.625 in
  let b := #243.04 in
  let gamma := Math_log (rh / #100) + (a * tempC) / (b + tempC) in
  let dewPointC := (b * gamma) / (a - gamma) in
  (dewPointC * #9 / #5) + #32.

(** [calculateCfmPerTon(cfm, tons)] *)
Definition calculateCfmPerTon (cfm tons : num) : num :=
  if tons === #0 then #0 else cfm / tons.

(** [getSaturationTemp(pressure, refrigerant)] *)
Definition getSaturationTemp (pressure : num) (refrigerant : string) : num :=
  if String.eqb refrigerant "R-410A" then
    if pressure <= #50 then #(-20) + (pressure * #1.6)
    else if pressure <= #100 then #60 + ((pressure - #50) * #1.2)
    else if pressure <= #200 then #120 + ((pressure - #100) * #0.8)
    else #200 + ((pressure - #200) * #0.4)
  else #32 + (pressure * #0.5).

(** [calculateSuperheat(suctionLineTemp, suctionPressure, refrigerant = 'R-410A')];
    [None] is an omitted third argument. *)
Definition calculateSuperheat (suctionLineTemp suctionPressure : num)
    (refrigerant : option string) : num :=
  let refrigerant := match refrigerant with Some r => r | None => "R-410A"%string end in
  let satTemp := getSaturationTemp suctionPressure refrigerant in
  suctionLineTemp - satTemp.

(** [calculateSubcooling(liquidLineTemp, liquidPressure, refrigerant = 'R-410A')] *)
Definition calculateSubcooling (liquidLineTemp liquidPressure : num)
    (refrigerant : option string) : num :=
  let refrigerant := match refrigerant with Some r => r | None => "R-410A"%string end in
  let satTemp := getSaturationTemp liquidPressure refrigerant in
  satTemp - liquidLineTemp.

(** [calculatePressureDecayRate(startPressure, endPressure, timeSeconds)] *)
Definition calculatePressureDecayRate (startPressure endPressure timeSeconds : num) : num :=
  if timeSeconds === #0 then #0
  else
    let decayAmount := startPressure - endPressure in
    (decayAmount / timeSeconds) * #60.

End NumericPrimitives.

(** ** Binary64: the arithmetic JavaScript runs *)

(** The part of the JavaScript engine the program calls into.  ECMA-262
    leaves [Math.log], [Math.pow] and [Math.sqrt] "implementation-approximated";
    [Number.prototype.toFixed], the ToString of a number (used by template
    literals) and [String.prototype.toLowerCase] only shape the display texts
    [target], [message] and [summary].  The routines are defined, and the
    theorems proved, for an arbitrary engine. *)
Class JsEngine : Type := {
  engine_log : float -> float;
  engine_pow : float -> float -> float;
  engine_sqrt : float -> float;
  number_toFixed : float -> nat -> string;
  number_toString : float -> string;
  string_toLowerCase : string -> string
}.

(** ECMA-262 fixes a few values of the approximated functions; the only one
    used below is [Math.log(1) = +0]. *)
Definition ecma_log_one (E : JsEngine) : Prop := engine_log 1%float = 0%float.

Definition float_of_Z (z : Z) : float :=
  match z with
  | Z0 => 0%float
  | Zpos _ => PrimFloat.of_uint63 (Uint63.of_Z z)
  | Zneg p => PrimFloat.opp (PrimFloat.of_uint63 (Uint63.of_Z (Zpos p)))
  end.

(** A decimal literal [m / 10^k] denotes the binary64 value nearest to it;
    since [m] and [10^k] are exact in binary64 for the literals of this
    program, a correctly rounded division yields that value. *)
Definition float_lit (q : Q) : float :=
  PrimFloat.div (float_of_Z (Qnum q)) (float_of_Z (Zpos (Qden q))).

#[export] Instance Binary64 `{E : JsEngine} : Arithmetic float := {|
  lit := float_lit;
  add := PrimFloat.add;
  sub := PrimFloat.sub;
  mul := PrimFloat.mul;
  div := PrimFloat.div;
  strict_eq := PrimFloat.eqb;
  le := PrimFloat.leb;
  lt := PrimFloat.ltb;
  Math_log := engine_log
|}.

(** ** Exact arithmetic: the same formulas over the reals *)

#[export] Instance Exact : Arithmetic R := {|
  lit := Q2R;
  add := Rplus;
  sub := Rminus;
  mul := Rmult;
  div := Rdiv;
  strict_eq := fun x y => if Req_dec_T x y then true else false;
  le := fun x y => if Rle_dec x y then true else false;
  lt := fun x y => if Rlt_dec x y then true else false;
  Math_log := ln
|}.

(** ** JavaScript values of the engine's inputs and outputs *)

(** [number | undefined]: a field that may be absent from the reading, or an
    omitted optional argument. *)
Definition ToNumber (v : option float) : float :=
  match v with Some x => x | None => PrimFloat.nan end.

(** ToBoolean on [number | undefined]: [undefined], [+0], [-0] and [NaN] are falsy. *)
Definition ToBoolean (v : option float) : bool :=
  match v with
  | Some x => negb (PrimFloat.is_zero x || PrimFloat.is_nan x)
  | None => false
  end.

(** [a || b] on [number | undefined]. *)
Definition js_or (a b : option float) : option float :=
  if ToBoolean a then a else b.

Inductive JsValue : Type :=
| JsUndefined
| JsNumber (x : float)
| JsString (s : string).

Definition JsValue_of (v : option float) : JsValue :=
  match v with Some x => JsNumber x | None => JsUndefined end.

Inductive JsError : Type :=
| Error (message : string)
| TypeError.

(** The outcome of a call: a returned value or a thrown exception. *)
Inductive Completion (A : Type) : Type :=
| Return (a : A)
| Throw (e : JsError).
Arguments Return {A} a.
Arguments Throw {A} e.

Module CheckResult.
Record t : Type := mk {
  pass : bool;
  value : JsValue;
  target : string;
  message : string
}.
End CheckResult.

Module ComputedResult.
(** [calculations] and [checks] are object literals: insertion-ordered
    maps with distinct keys, kept as association lists.  A value of
    [calculations] can be [undefined] when it copies an absent field. *)
Record t : Type := mk {
  calculations : list (string * option float);
  checks : list (string * CheckResult.t);
  pass : bool;
  summary : string
}.
End ComputedResult.

(** Lookup of a key in an object literal. *)
Fixpoint get {A : Type} (o : list (string * A)) (k : string) : option A :=
  match o with
  | [] => None
  | (k', v) :: o' => if String.eqb k' k then Some v else get o' k
  end.

Definition keys {A : Type} (o : list (string * A)) : list string := map fst o.

(** ** calculations.ts: threshold checks and statistics (binary64) *)

Module Stats.
Record t : Type := mk { min : float; max : float; avg : float; stdDev : float }.
End Stats.

Definition is_neg_zero (x : float) : bool :=
  match PrimFloat.classify x with NZero => true | _ => false end.
Definition is_pos_zero (x : float) : bool :=
  match PrimFloat.classify x with PZero => true | _ => false end.

(** [Math.min(...values)], ECMA-262 21.3.2.25: start from [+Infinity]; a NaN
    argument gives NaN; [-0] is below [+0]. *)
Fixpoint Math_min_from (lowest : float) (coerced : list float) : float :=
  match coerced with
  | [] => lowest
  | number :: rest =>
      if PrimFloat.is_nan number then PrimFloat.nan
      else
        let lowest := if is_neg_zero number && is_pos_zero lowest then number else lowest in
        let lowest := if PrimFloat.ltb number lowest then number else lowest in
        Math_min_from lowest rest
  end.
Definition Math_min (values : list float) : float := Math_min_from PrimFloat.infinity values.

(** [Math.max(...values)], ECMA-262 21.3.2.24. *)
Fixpoint Math_max_from (highest : float) (coerced : list float) : float :=
  match coerced with
  | [] => highest
  | number :: rest =>
      if PrimFloat.is_nan number then PrimFloat.nan
      else
        let highest := if is_pos_zero number && is_neg_zero highest then number else highest in
        let highest := if PrimFloat.ltb highest number then number else highest in
        Math_max_from highest rest
  end.
Definition Math_max (values : list float) : float := Math_max_from PrimFloat.neg_infinity values.

Definition Math_abs (x : float) : float := PrimFloat.abs x.

Definition dquote : string := String (ascii_of_nat 34) EmptyString.

Section Engine.
Context `{E : JsEngine}.
Local Open Scope js_scope.
Local Open Scope string_scope.

(** [checkBuildingPressure(deltaP)].  The argument is a raw field of the
    reading and is stored unconverted in [value], so it is kept as
    [number | undefined]; the comparisons convert it with ToNumber. *)
Definition checkBuildingPressure (deltaP : option float) : CheckResult.t :=
  let min := #0.02 in
  let max := #0.05 in
  let pass := (ToNumber deltaP >= min) && (ToNumber deltaP <= max) in
  {| CheckResult.pass := pass;
     CheckResult.value := JsValue_of deltaP;
     CheckResult.target := number_toString min ++ " - " ++ number_toString max ++ " in. w.c.";
     CheckResult.message :=
       if pass then "Building pressure within acceptable range"
       else if ToNumber deltaP < min
            then "Building pressure too low - insufficient pressurization"
            else "Building pressure too high - over pressurized" |}.

(** [checkCfmPerTon(cfmPerTon)] *)
Definition checkCfmPerTon (cfmPerTon : float) : CheckResult.t :=
  let min := #350 in
  let max := #400 in
  let pass := (cfmPerTon >= min) && (cfmPerTon <= max) in
  {| CheckResult.pass := pass;
     CheckResult.value := JsNumber cfmPerTon;
     CheckResult.target := number_toString min ++ " - " ++ number_toString max ++ " CFM/ton";
     CheckResult.message :=
       if pass then "CFM/ton within acceptable range for dehumidification"
       else if cfmPerTon < min
            then "CFM/ton too low - may indicate airflow restriction"
            else "CFM/ton too high - poor dehumidification performance" |}.

(** [checkSupplyDewPoint(supplyDP)] *)
Definition checkSupplyDewPoint (supplyDP : float) : CheckResult.t :=
  let min := #50 in
  let max := #55 in
  let pass := (supplyDP >= min) && (supplyDP <= max) in
  {| CheckResult.pass := pass;
     CheckResult.value := JsNumber supplyDP;
     CheckResult.target := number_toString min ++ " - " ++ number_toString max ++ "°F";
     CheckResult.message :=
       if pass then "Supply dew point within acceptable range"
       else if supplyDP < min
            then "Supply dew point too low - over-dehumidification"
            else "Supply dew point too high - insufficient dehumidification" |}.

(** The [let min, max] of [checkSuperheat] after the outdoor adjustment. *)
Definition superheatRange (outdoorTemp : float) : float * float :=
  if outdoorTemp > #100 then (#6, #12)
  else if outdoorTemp < #80 then (#10, #18)
  else (#8, #15).

(** [checkSuperheat(superheat, outdoorTemp = 95)]: the default applies when
    the argument is [undefined]. *)
Definition checkSuperheat (superheat : float) (outdoorTemp : option float) : CheckResult.t :=
  let outdoorTemp := match outdoorTemp with Some t => t | None => #95 end in
  let '(min, max) := superheatRange outdoorTemp in
  let pass := (superheat >= min) && (superheat <= max) in
  {| CheckResult.pass := pass;
     CheckResult.value := JsNumber superheat;
     CheckResult.target := number_toString min ++ " - " ++ number_toString max ++ "°F";
     CheckResult.message :=
       if pass then "Superheat within acceptable range"
       else if superheat < min
            then "Superheat too low - possible refrigerant overcharge or TXV issues"
            else "Superheat too high - possible refrigerant undercharge or restriction" |}.

(** The [let min, max] of [checkSubcooling] after the outdoor adjustment. *)
Definition subcoolingRange (outdoorTemp : float) : float * float :=
  if outdoorTemp > #100 then (#10, #18)
  else if outdoorTemp < #80 then (#6, #12)
  else (#8, #15).

(** [checkSubcooling(subcooling, outdoorTemp = 95)] *)
Definition checkSubcooling (subcooling : float) (outdoorTemp : option float) : CheckResult.t :=
  let outdoorTemp := match outdoorTemp with Some t => t | None => #95 end in
  let '(min, max) := subcoolingRange outdoorTemp in
  let pass := (subcooling >= min) && (subcooling <= max) in
  {| CheckResult.pass := pass;
     CheckResult.value := JsNumber subcooling;
     CheckResult.target := number_toString min ++ " - " ++ number_toString max ++ "°F";
     CheckResult.message :=
       if pass then "Subcooling within acceptable range"
       else if subcooling < min
            then "Subcooling too low - possible refrigerant undercharge"
            else "Subcooling too high - possible refrigerant overcharge or restriction" |}.

(** [calculateStats(values)] *)
Definition calculateStats (values : list float) : Stats.t :=
  if Nat.eqb (List.length values) 0 then
    {| Stats.min := #0; Stats.max := #0; Stats.avg := #0; Stats.stdDev := #0 |}
  else
    let length := float_of_Z (Z.of_nat (List.length values)) in
    let min := Math_min values in
    let max := Math_max values in
    let avg := fold_left (fun sum val => sum + val) values #0 / length in
    let variance :=
      fold_left (fun sum val => sum + engine_pow (val - avg) #2) values #0 / length in
    let stdDev := engine_sqrt variance in
    {| Stats.min := min; Stats.max := max; Stats.avg := avg; Stats.stdDev := stdDev |}.

End Engine.

(** ** test-computations.ts: the reading *)

(** An element of [gridSamples]: [{ point, db_F, rh_pct }]. *)
Record GridSample : Type := mkGridSample {
  db_F : float;
  rh_pct : float
}.

(** [reading: any] is the JSON object of the request; the API route does not
    validate it against the per-test-type schema, and [reading as XData] is an
    unchecked cast.  The object is modelled by the fields the engine reads,
    each either absent ([None], read as [undefined]) or holding a value of
    the type its schema declares. *)
Record Reading : Type := mkReading {
  (* BuildingPressureData *)
  deltaP_inwc : option float;
  (* PressureDecayData *)
  startDeltaP : option float;
  endDeltaP : option float;
  decaySeconds : option float;
  (* ReturnCurbLeakageData *)
  returnStatic_inwc : option float;
  supplyStatic_inwc : option float;
  smokeLeaksFound : option bool;
  leakLocations : option (list string);
  (* SlabWallMoistureData *)
  plasticTest : option string;
  (* AirflowStaticData *)
  tons : option float;
  supplyCFM : option float;
  returnCFM : option float;
  extStatic_inwc : option float;
  (* RefrigerantCircuitData *)
  outdoorDB_F : option float;
  suctionPSI : option float;
  liquidPSI : option float;
  suctionLineTemp_F : option float;
  liquidLineTemp_F : option float;
  (* CoilPerformanceData, FanEvapRecheckData *)
  returnDB_F : option float;
  returnRH_pct : option float;
  supplyDB_F : option float;
  supplyRH_pct : option float;
  condensateVolume_oz_per_30min : option float;
  airflowCFM : option float;
  staticPressure_inwc : option float;
  (* EconomizerSealData *)
  commandedPct : option float;
  leakageObserved : option bool;
  method : option string;
  (* DistributionMixingData *)
  gridSamples : option (list GridSample);
  returnDewPoint_F : option float
}.

(** [weatherData?: { outdoorTemp?: number; outdoorRH?: number }] *)
Record WeatherData : Type := mkWeatherData {
  outdoorTemp : option float;
  outdoorRH : option float
}.

(** [!b] on [boolean | undefined]. *)
Definition js_not (b : option bool) : bool :=
  match b with Some true => false | _ => true end.

(** [b ? x : y] on [boolean | undefined]. *)
Definition js_cond {A : Type} (b : option bool) (x y : A) : A :=
  match b with Some true => x | _ => y end.

(** ** test-computations.ts: the ten routines *)

Section Routines.
Context `{E : JsEngine}.
Local Open Scope js_scope.
Local Open Scope string_scope.

(** ToString of [number | undefined] and of [string | undefined] inside a
    template literal. *)
Definition template_num (v : option float) : string :=
  match v with Some x => number_toString x | None => "undefined" end.
Definition template_str (v : option string) : string :=
  match v with Some s => s | None => "undefined" end.

Definition computeBuildingPressure (data : Reading) : ComputedResult.t :=
  let check := checkBuildingPressure (deltaP_inwc data) in
  {| ComputedResult.calculations := [ ("pressure_inwc", deltaP_inwc data) ];
     ComputedResult.checks := [ ("building_pressure", check) ];
     ComputedResult.pass := CheckResult.pass check;
     ComputedResult.summary := CheckResult.message check |}.

Definition computePressureDecay (data : Reading) : ComputedResult.t :=
  let decayRate :=
    calculatePressureDecayRate (ToNumber (startDeltaP data)) (ToNumber (endDeltaP data))
                               (ToNumber (decaySeconds data)) in
  let totalDecay := ToNumber (startDeltaP data) - ToNumber (endDeltaP data) in
  let acceptableDecayRate := #0.01 in
  let pass := decayRate <= acceptableDecayRate in
  {| ComputedResult.calculations :=
       [ ("decay_rate_per_min", Some decayRate);
         ("total_decay_inwc", Some totalDecay);
         ("decay_percentage", Some ((totalDecay / ToNumber (startDeltaP data)) * #100)) ];
     ComputedResult.checks :=
       [ ("decay_rate",
          {| CheckResult.pass := pass;
             CheckResult.value := JsNumber decayRate;
             CheckResult.target := "≤ " ++ number_toString acceptableDecayRate ++ " in. w.c./min";
             CheckResult.message :=
               if pass then "Pressure decay within acceptable limits"
               else "Excessive pressure decay - check for envelope leaks" |}) ];
     ComputedResult.pass := pass;
     ComputedResult.summary :=
       if pass
       then "Pressure decay rate of " ++ number_toFixed decayRate 4 ++ " in. w.c./min is acceptable"
       else "Pressure decay rate of " ++ number_toFixed decayRate 4 ++ " in. w.c./min exceeds limit" |}.

(** [data.leakLocations?.join(', ') || 'unspecified locations']: an absent
    array and an empty joined string are both falsy. *)
Definition leakLocationsText (data : Reading) : string :=
  match leakLocations data with
  | None => "unspecified locations"
  | Some l =>
      let joined := String.concat ", " l in
      if String.eqb joined "" then "unspecified locations" else joined
  end.

Definition computeReturnCurbLeakage (data : Reading) : ComputedResult.t :=
  let pressureDiff :=
    Math_abs (ToNumber (returnStatic_inwc data) - ToNumber (supplyStatic_inwc data)) in
  let maxDiff := #0.1 in
  let pressurePass := pressureDiff <= maxDiff in
  let leakPass := js_not (smokeLeaksFound data) in
  let overallPass := pressurePass && leakPass in
  {| ComputedResult.calculations :=
       [ ("return_static_inwc", returnStatic_inwc data);
         ("supply_static_inwc", supplyStatic_inwc data);
         ("pressure_difference_inwc", Some pressureDiff) ];
     ComputedResult.checks :=
       [ ("pressure_balance",
          {| CheckResult.pass := pressurePass;
             CheckResult.value := JsNumber pressureDiff;
             CheckResult.target := "≤ " ++ number_toString maxDiff ++ " in. w.c.";
             CheckResult.message :=
               if pressurePass then "Return/supply pressure difference within limits"
               else "Excessive pressure imbalance detected" |});
         ("smoke_leaks",
          {| CheckResult.pass := leakPass;
             CheckResult.value := JsString (js_cond (smokeLeaksFound data) "FOUND" "NONE");
             CheckResult.target := "NONE";
             CheckResult.message :=
               if leakPass then "No smoke leaks detected"
               else "Smoke leaks found at: " ++ leakLocationsText data |}) ];
     ComputedResult.pass := overallPass;
     ComputedResult.summary :=
       if overallPass then "Return/curb leakage test passed"
       else "Return/curb leakage issues detected" |}.

(** [data.plasticTest.toLowerCase()] throws a TypeError when the field is
    absent; it is evaluated only when the test did not pass. *)
Definition computeSlabWallMoisture (data : Reading) : Completion ComputedResult.t :=
  let pass := match plasticTest data with Some s => String.eqb s "DRY" | None => false end in
  let value := match plasticTest data with Some s => JsString s | None => JsUndefined end in
  if pass then
    Return
      {| ComputedResult.calculations := [];
         ComputedResult.checks :=
           [ ("plastic_test",
              {| CheckResult.pass := pass;
                 CheckResult.value := value;
                 CheckResult.target := "DRY";
                 CheckResult.message := "No moisture issues detected under plastic test" |}) ];
         ComputedResult.pass := pass;
         ComputedResult.summary := "No moisture issues detected" |}
  else
    match plasticTest data with
    | None => Throw TypeError
    | Some s =>
        Return
          {| ComputedResult.calculations := [];
             ComputedResult.checks :=
               [ ("plastic_test",
                  {| CheckResult.pass := pass;
                     CheckResult.value := value;
                     CheckResult.target := "DRY";
                     CheckResult.message := "Moisture detected: " ++ string_toLowerCase s |}) ];
             ComputedResult.pass := pass;
             ComputedResult.summary := "Moisture issues detected: " ++ string_toLowerCase s |}
    end.

Definition computeAirflowStatic (data : Reading) : ComputedResult.t :=
  let cfmPerTon := calculateCfmPerTon (ToNumber (supplyCFM data)) (ToNumber (tons data)) in
  let cfmCheck := checkCfmPerTon cfmPerTon in
  let staticPass :=
    (ToNumber (extStatic_inwc data) >= #0.3) && (ToNumber (extStatic_inwc data) <= #1.5) in
  {| ComputedResult.calculations :=
       [ ("cfm_per_ton", Some cfmPerTon);
         ("supply_cfm", supplyCFM data);
         ("return_cfm", js_or (returnCFM data) (Some #0));
         ("external_static_inwc", extStatic_inwc data) ];
     ComputedResult.checks :=
       [ ("cfm_per_ton", cfmCheck);
         ("external_static",
          {| CheckResult.pass := staticPass;
             CheckResult.value := JsValue_of (extStatic_inwc data);
             CheckResult.target := "0.3 - 1.5 in. w.c.";
             CheckResult.message :=
               if staticPass then "External static pressure within normal range"
               else if ToNumber (extStatic_inwc data) < #0.3
                    then "External static pressure too low"
                    else "External static pressure too high - check for restrictions" |}) ];
     ComputedResult.pass := CheckResult.pass cfmCheck && staticPass;
     ComputedResult.summary :=
       "CFM/ton: " ++ number_toFixed cfmPerTon 0 ++ ", Static: "
         ++ template_num (extStatic_inwc data) ++ dquote ++ " w.c." |}.

Definition computeRefrigerantCircuit (data : Reading) (outdoorTemp : option float)
  : ComputedResult.t :=
  let superheat :=
    calculateSuperheat (ToNumber (suctionLineTemp_F data)) (ToNumber (suctionPSI data)) None in
  let subcooling :=
    calculateSubcooling (ToNumber (liquidLineTemp_F data)) (ToNumber (liquidPSI data)) None in
  let shCheck := checkSuperheat superheat (js_or outdoorTemp (outdoorDB_F data)) in
  let scCheck := checkSubcooling subcooling (js_or outdoorTemp (outdoorDB_F data)) in
  {| ComputedResult.calculations :=
       [ ("superheat_F", Some superheat);
         ("subcooling_F", Some subcooling);
         ("suction_psi", suctionPSI data);
         ("liquid_psi", liquidPSI data);
         ("suction_temp_F", suctionLineTemp_F data);
         ("liquid_temp_F", liquidLineTemp_F data) ];
     ComputedResult.checks := [ ("superheat", shCheck); ("subcooling", scCheck) ];
     ComputedResult.pass := CheckResult.pass shCheck && CheckResult.pass scCheck;
     ComputedResult.summary :=
       "SH: " ++ number_toFixed superheat 1 ++ "°F, SC: " ++ number_toFixed subcooling 1 ++ "°F" |}.

Definition computeCoilPerformance (data : Reading) : ComputedResult.t :=
  let returnDP := calculateDewPoint (ToNumber (returnDB_F data)) (ToNumber (returnRH_pct data)) in
  let supplyDP := calculateDewPoint (ToNumber (supplyDB_F data)) (ToNumber (supplyRH_pct data)) in
  let dewPointDrop := returnDP - supplyDP in
  let tempDrop := ToNumber (returnDB_F data) - ToNumber (supplyDB_F data) in
  let supplyDPCheck := checkSupplyDewPoint supplyDP in
  let tempDropPass := (tempDrop >= #8) && (tempDrop <= #25) in
  {| ComputedResult.calculations :=
       [ ("return_dew_point_F", Some returnDP);
         ("supply_dew_point_F", Some supplyDP);
         ("dew_point_drop_F", Some dewPointDrop);
         ("temperature_drop_F", Some tempDrop);
         ("condensate_oz_per_30min", js_or (condensateVolume_oz_per_30min data) (Some #0)) ];
     ComputedResult.checks :=
       [ ("supply_dew_point", supplyDPCheck);
         ("temperature_drop",
          {| CheckResult.pass := tempDropPass;
             CheckResult.value := JsNumber tempDrop;
             CheckResult.target := "8 - 25°F";
             CheckResult.message :=
               if tempDropPass then "Temperature drop within normal range"
               else if tempDrop < #8
                    then "Insufficient cooling - check refrigerant charge"
                    else "Excessive temperature drop - check airflow" |}) ];
     ComputedResult.pass := CheckResult.pass supplyDPCheck && tempDropPass;
     ComputedResult.summary :=
       "Supply DP: " ++ number_toFixed supplyDP 1 ++ "°F, ΔT: " ++ number_toFixed tempDrop 1 ++ "°F" |}.

Definition computeFanEvapRecheck (data : Reading) : ComputedResult.t :=
  let returnDP := calculateDewPoint (ToNumber (returnDB_F data)) (ToNumber (returnRH_pct data)) in
  let supplyDP := calculateDewPoint (ToNumber (supplyDB_F data)) (ToNumber (supplyRH_pct data)) in
  let supplyDPCheck := checkSupplyDewPoint supplyDP in
  let staticPass :=
    (ToNumber (staticPressure_inwc data) >= #0.3) && (ToNumber (staticPressure_inwc data) <= #1.5) in
  {| ComputedResult.calculations :=
       [ ("return_dew_point_F", Some returnDP);
         ("supply_dew_point_F", Some supplyDP);
         ("airflow_cfm", airflowCFM data);
         ("static_pressure_inwc", staticPressure_inwc data) ];
     ComputedResult.checks :=
       [ ("supply_dew_point", supplyDPCheck);
         ("static_pressure",
          {| CheckResult.pass := staticPass;
             CheckResult.value := JsValue_of (staticPressure_inwc data);
             CheckResult.target := "0.3 - 1.5 in. w.c.";
             CheckResult.message :=
               if staticPass then "Static pressure acceptable"
               else "Static pressure out of range" |}) ];
     ComputedResult.pass := CheckResult.pass supplyDPCheck && staticPass;
     ComputedResult.summary :=
       "Fan/evap recheck - Supply DP: " ++ number_toFixed supplyDP 1 ++ "°F" |}.

Definition computeEconomizerSeal (data : Reading) : ComputedResult.t :=
  let positionPass := ToNumber (commandedPct data) <= #5 in
  let leakPass := js_not (leakageObserved data) in
  {| ComputedResult.calculations := [ ("commanded_position_pct", commandedPct data) ];
     ComputedResult.checks :=
       [ ("damper_position",
          {| CheckResult.pass := positionPass;
             CheckResult.value := JsValue_of (commandedPct data);
             CheckResult.target := "0%";
             CheckResult.message :=
               if positionPass then "Economizer damper properly closed"
               else "Economizer damper not fully closed" |});
         ("leakage_test",
          {| CheckResult.pass := leakPass;
             CheckResult.value := JsString (js_cond (leakageObserved data) "OBSERVED" "NONE");
             CheckResult.target := "NONE";
             CheckResult.message :=
               if leakPass
               then "No leakage observed (" ++ template_str (method data) ++ " test)"
               else "Leakage observed during " ++ template_str (method data) ++ " test" |}) ];
     ComputedResult.pass := positionPass && leakPass;
     ComputedResult.summary :=
       if leakPass then "Economizer seal test passed" else "Economizer leakage detected" |}.

(** [data.gridSamples.map(...)] throws a TypeError when the field is absent. *)
Definition computeDistributionMixing (data : Reading) : Completion ComputedResult.t :=
  match gridSamples data with
  | None => Throw TypeError
  | Some samples =>
      let temperatures := map (fun s => db_F s) samples in
      let humidities := map (fun s => rh_pct s) samples in
      let dewPoints := map (fun s => calculateDewPoint (db_F s) (rh_pct s)) samples in
      let tempStats := calculateStats temperatures in
      let rhStats := calculateStats humidities in
      let dpStats := calculateStats dewPoints in
      let tempVariationPass := (Stats.max tempStats - Stats.min tempStats) <= #5 in
      let rhVariationPass := (Stats.max rhStats - Stats.min rhStats) <= #10 in
      Return
        {| ComputedResult.calculations :=
             [ ("temp_min_F", Some (Stats.min tempStats));
               ("temp_max_F", Some (Stats.max tempStats));
               ("temp_avg_F", Some (Stats.avg tempStats));
               ("temp_variation_F", Some (Stats.max tempStats - Stats.min tempStats));
               ("rh_min_pct", Some (Stats.min rhStats));
               ("rh_max_pct", Some (Stats.max rhStats));
               ("rh_avg_pct", Some (Stats.avg rhStats));
               ("rh_variation_pct", Some (Stats.max rhStats - Stats.min rhStats));
               ("dp_min_F", Some (Stats.min dpStats));
               ("dp_max_F", Some (Stats.max dpStats));
               ("dp_avg_F", Some (Stats.avg dpStats));
               ("return_dp_F", returnDewPoint_F data) ];
           ComputedResult.checks :=
             [ ("temperature_mixing",
                {| CheckResult.pass := tempVariationPass;
                   CheckResult.value := JsNumber (Stats.max tempStats - Stats.min tempStats);
                   CheckResult.target := "≤ 5°F variation";
                   CheckResult.message :=
                     if tempVariationPass then "Good temperature mixing achieved"
                     else "Poor temperature mixing - check airflow distribution" |});
               ("humidity_mixing",
                {| CheckResult.pass := rhVariationPass;
                   CheckResult.value := JsNumber (Stats.max rhStats - Stats.min rhStats);
                   CheckResult.target := "≤ 10% RH variation";
                   CheckResult.message :=
                     if rhVariationPass then "Good humidity mixing achieved"
                     else "Poor humidity mixing - check airflow distribution" |}) ];
           ComputedResult.pass := tempVariationPass && rhVariationPass;
           ComputedResult.summary :=
             "Zone mixing - ΔT: "
               ++ number_toFixed (Stats.max tempStats - Stats.min tempStats) 1 ++ "°F, ΔRH: "
               ++ number_toFixed (Stats.max rhStats - Stats.min rhStats) 1 ++ "%" |}
  end.

(** ** The dispatcher *)

(** [computeTestResult(testType, reading, weatherData?)]: the [switch] on
    the discriminant, which is a string at run time. *)
Definition computeTestResult (testType : string) (reading : Reading)
    (weatherData : option WeatherData) : Completion ComputedResult.t :=
  if String.eqb testType "BUILDING_PRESSURE" then
    Return (computeBuildingPressure reading)
  else if String.eqb testType "PRESSURE_DECAY" then
    Return (computePressureDecay reading)
  else if String.eqb testType "RETURN_CURB_LEAKAGE" then
    Return (computeReturnCurbLeakage reading)
  else if String.eqb testType "SLAB_WALL_MOISTURE" then
    computeSlabWallMoisture reading
  else if String.eqb testType "AIRFLOW_STATIC" then
    Return (computeAirflowStatic reading)
  else if String.eqb testType "REFRIGERANT_CIRCUIT" then
    Return (computeRefrigerantCircuit reading
              (match weatherData with Some w => outdoorTemp w | None => None end))
  else if String.eqb testType "COIL_PERFORMANCE" then
    Return (computeCoilPerformance reading)
  else if String.eqb testType "FAN_EVAP_RECHECK" then
    Return (computeFanEvapRecheck reading)
  else if String.eqb testType "ECONOMIZER_SEAL" then
    Return (computeEconomizerSeal reading)
  else if String.eqb testType "DISTRIBUTION_MIXING" then
    computeDistributionMixing reading
  else
    Throw (Error ("Unknown test type: " ++ testType)).

End Routines.

(** ** schemas.ts: what a valid reading is *)

(** [z.number().min(lo).max(hi)]: a number (not NaN) within the bounds. *)
Definition z_number (lo hi : Q) (v : option float) : bool :=
  match v with
  | Some x => PrimFloat.leb (float_lit lo) x && PrimFloat.leb x (float_lit hi)
  | None => false
  end.

(** [schema.optional()] *)
Definition z_optional {A : Type} (schema : option A -> bool) (v : option A) : bool :=
  match v with None => true | Some _ => schema v end.

Definition z_boolean (v : option bool) : bool :=
  match v with Some _ => true | None => false end.

(** [z.enum([...])] *)
Definition z_enum (values : list string) (v : option string) : bool :=
  match v with Some s => existsb (String.eqb s) values | None => false end.

Definition temperatureSchema := z_number (-40) 150.
Definition humiditySchema := z_number 0 100.
Definition pressureSchema := z_number (-10) 10.
Definition cfmSchema := z_number 0 50000.
Definition psiSchema := z_number 0 1000.

(** The per-test-type schemas, restricted to the fields the engine reads
    (labels, notes and the like are left out of [Reading]). *)
Definition BuildingPressureSchema (r : Reading) : bool :=
  pressureSchema (deltaP_inwc r).

Definition PressureDecaySchema (r : Reading) : bool :=
  pressureSchema (startDeltaP r) && pressureSchema (endDeltaP r)
  && z_number 0 3600 (decaySeconds r).

Definition ReturnCurbLeakageSchema (r : Reading) : bool :=
  pressureSchema (returnStatic_inwc r) && pressureSchema (supplyStatic_inwc r)
  && z_boolean (smokeLeaksFound r).

Definition SlabWallMoistureSchema (r : Reading) : bool :=
  z_enum ["DRY"; "CONDENSATION"; "DARKENING"]%string (plasticTest r).

Definition AirflowStaticSchema (r : Reading) : bool :=
  z_number 0.5 200 (tons r) && cfmSchema (supplyCFM r)
  && z_optional cfmSchema (returnCFM r) && pressureSchema (extStatic_inwc r).

Definition RefrigerantCircuitSchema (r : Reading) : bool :=
  temperatureSchema (outdoorDB_F r) && psiSchema (suctionPSI r) && psiSchema (liquidPSI r)
  && temperatureSchema (suctionLineTemp_F r) && temperatureSchema (liquidLineTemp_F r).

Definition CoilPerformanceSchema (r : Reading) : bool :=
  temperatureSchema (returnDB_F r) && humiditySchema (returnRH_pct r)
  && temperatureSchema (supplyDB_F r) && humiditySchema (supplyRH_pct r)
  && z_optional (z_number 0 1000) (condensateVolume_oz_per_30min r).

Definition FanEvapRecheckSchema (r : Reading) : bool :=
  temperatureSchema (returnDB_F r) && humiditySchema (returnRH_pct r)
  && temperatureSchema (supplyDB_F r) && humiditySchema (supplyRH_pct r)
  && cfmSchema (airflowCFM r) && pressureSchema (staticPressure_inwc r).

Definition EconomizerSealSchema (r : Reading) : bool :=
  z_number 0 100 (commandedPct r) && z_boolean (leakageObserved r)
  && z_enum ["SMOKE"; "VISUAL"]%string (method r).

Definition DistributionMixingSchema (r : Reading) : bool :=
  match gridSamples r with
  | Some samples =>
      forallb (fun s => temperatureSchema (Some (db_F s)) && humiditySchema (Some (rh_pct s)))
              samples
      && Nat.leb 1 (List.length samples)
  | None => false
  end
  && temperatureSchema (returnDewPoint_F r).

(** The [testType] enum of [CreateTestResultSchema]. *)
Definition TestType : list string :=
  [ "BUILDING_PRESSURE"; "PRESSURE_DECAY"; "RETURN_CURB_LEAKAGE"; "SLAB_WALL_MOISTURE";
    "AIRFLOW_STATIC"; "REFRIGERANT_CIRCUIT"; "COIL_PERFORMANCE"; "FAN_EVAP_RECHECK";
    "ECONOMIZER_SEAL"; "DISTRIBUTION_MIXING" ]%string.

Definition recognized (testType : string) : bool := existsb (String.eqb testType) TestType.

(** [TestReadingSchema]: the discriminated union of the ten schemas. *)
Definition TestReadingSchema (testType : string) (data : Reading) : bool :=
  if String.eqb testType "BUILDING_PRESSURE" then BuildingPressureSchema data
  else if String.eqb testType "PRESSURE_DECAY" then PressureDecaySchema data
  else if String.eqb testType "RETURN_CURB_LEAKAGE" then ReturnCurbLeakageSchema data
  else if String.eqb testType "SLAB_WALL_MOISTURE" then SlabWallMoistureSchema data
  else if String.eqb testType "AIRFLOW_STATIC" then AirflowStaticSchema data
  else if String.eqb testType "REFRIGERANT_CIRCUIT" then RefrigerantCircuitSchema data
  else if String.eqb testType "COIL_PERFORMANCE" then CoilPerformanceSchema data
  else if String.eqb testType "FAN_EVAP_RECHECK" then FanEvapRecheckSchema data
  else if String.eqb testType "ECONOMIZER_SEAL" then EconomizerSealSchema data
  else if String.eqb testType "DISTRIBUTION_MIXING" then DistributionMixingSchema data
  else false.

(** ** calculations.ts: economizer effectiveness *)

(** [calculateEconomizerEffectiveness(mixedAirTemp, returnAirTemp, outsideAirTemp)];
    the clamp is [Math.max(0, Math.min(100, effectiveness))]. *)
Definition calculateEconomizerEffectiveness
    (mixedAirTemp returnAirTemp outsideAirTemp : float) : float :=
  if PrimFloat.eqb returnAirTemp outsideAirTemp then 100%float
  else
    let effectiveness :=
      ((returnAirTemp - mixedAirTemp) / (returnAirTemp - outsideAirTemp) * 100)%float in
    Math_max [0%float; Math_min [100%float; effectiveness]].

(** ** The route [POST /api/tests]: storing a test result *)

(** The session row: [weatherOADryBulb] and [weatherOARH] are numbers or
    [null]; [x ?? undefined] turns [null] into [undefined] and keeps every
    number, so both are read as [None]. *)
Record SessionRecord : Type := mkSessionRecord {
  weatherOADryBulb : option float;
  weatherOARH : option float
}.

(** The part of a stored test result the engine determines; an [undefined]
    [computed] or [pass] is stored as [null]. *)
Module TestResult.
Record t : Type := mk {
  testType : string;
  computed : option ComputedResult.t;
  pass : option bool
}.
End TestResult.

(** [CreateTestResultSchema], as far as the computation depends on it: the
    field [testType] is [z.enum([...])], the field [reading] is [z.any()]. *)
Definition CreateTestResultSchema (testType : string) : bool :=
  z_enum [ "BUILDING_PRESSURE"; "PRESSURE_DECAY"; "RETURN_CURB_LEAKAGE";
           "SLAB_WALL_MOISTURE"; "AIRFLOW_STATIC"; "REFRIGERANT_CIRCUIT";
           "COIL_PERFORMANCE"; "FAN_EVAP_RECHECK"; "ECONOMIZER_SEAL";
           "DISTRIBUTION_MIXING" ]%string (Some testType).

(** The answers of [POST] to an authenticated editor of an existing session,
    with the database at hand: 400 'Invalid input fields', or 201 with the
    row handed to [db.testResult.create]. *)
Inductive Response : Type :=
| status400
| status201 (testResult : TestResult.t).

Section Route.
Context `{E : JsEngine}.

(** [POST]: validation of the body, then from the weather data to the
    [data] of [db.testResult.create]; any exception of the computation is
    caught and leaves [computed] and [pass] undefined.  The reading is an
    object with fields of the types the forms submit. *)
Definition POST (testType : string) (reading : Reading) (session : SessionRecord)
  : Response :=
  if CreateTestResultSchema testType then
    let weatherData :=
      {| outdoorTemp := weatherOADryBulb session; outdoorRH := weatherOARH session |} in
    match computeTestResult testType reading (Some weatherData) with
    | Return computation =>
        status201 {| TestResult.testType := testType;
                     TestResult.computed := Some computation;
                     TestResult.pass := Some (ComputedResult.pass computation) |}
    | Throw _ =>
        status201 {| TestResult.testType := testType;
                     TestResult.computed := None;
                     TestResult.pass := None |}
    end
  else status400.

End Route.

(** ** The route [GET /api/reports/:sessionId]: statistics of a session *)

(** The counters are JavaScript numbers incremented from 0; they are exact
    integers for any array, and kept as natural numbers. *)
Module PassFailStats.
Record t : Type := mk { pass : nat; fail : nat; pending : nat }.
End PassFailStats.

(** The callback of the [passFailStats] reduction:
    [if (test.pass === true) acc.pass++ else if (test.pass === false) acc.fail++ else acc.pending++]. *)
Definition passFailStats_step (acc : PassFailStats.t) (test : TestResult.t)
  : PassFailStats.t :=
  match TestResult.pass test with
  | Some true =>
      {| PassFailStats.pass := S (PassFailStats.pass acc);
         PassFailStats.fail := PassFailStats.fail acc;
         PassFailStats.pending := PassFailStats.pending acc |}
  | Some false =>
      {| PassFailStats.pass := PassFailStats.pass acc;
         PassFailStats.fail := S (PassFailStats.fail acc);
         PassFailStats.pending := PassFailStats.pending acc |}
  | None =>
      {| PassFailStats.pass := PassFailStats.pass acc;
         PassFailStats.fail := PassFailStats.fail acc;
         PassFailStats.pending := S (PassFailStats.pending acc) |}
  end.

(** [session.tests.reduce((acc, test) => { ... }, { pass: 0, fail: 0, pending: 0 })] *)
Definition passFailStats (tests : list TestResult.t) : PassFailStats.t :=
  fold_left passFailStats_step tests
    {| PassFailStats.pass := 0%nat; PassFailStats.fail := 0%nat;
       PassFailStats.pending := 0%nat |}.

(** [o[k] = v] on an object kept as an association list: an existing key
    keeps its place, a new key goes last. *)
Fixpoint assign {A : Type} (o : list (string * A)) (k : string) (v : A) : list (string * A) :=
  match o with
  | [] => [(k, v)]
  | (k', v') :: o' => if String.eqb k' k then (k', v) :: o' else (k', v') :: assign o' k v
  end.

(** The callback of the [testsByType] reduction:
    [acc[test.testType] = (acc[test.testType] || 0) + 1].  The accumulator
    starts as [{}]; [test.testType] is a value of the enumeration of test
    types, none of which names a property inherited from [Object.prototype],
    so the look-up sees own properties only. *)
Definition testsByType_step (acc : list (string * nat)) (test : TestResult.t)
  : list (string * nat) :=
  let count :=
    match get acc (TestResult.testType test) with
    | Some n => if Nat.eqb n 0%nat then 0%nat else n
    | None => 0%nat
    end in
  assign acc (TestResult.testType test) (count + 1)%nat.

(** [session.tests.reduce((acc, test) => { ... }, {})] *)
Definition testsByType (tests : list TestResult.t) : list (string * nat) :=
  fold_left testsByType_step tests [].

(** ** components/test-forms: the live previews *)

Section Forms.
Context `{E : JsEngine}.
Local Open Scope js_scope.
Local Open Scope string_scope.

(** [BuildingPressureForm]: [handlePressureChange(pressure)]; the result is
    the new [computed] state, [None] for [null]. *)
Definition handlePressureChange (pressure : float) : option ComputedResult.t :=
  if pressure > #0 then
    let result := checkBuildingPressure (Some pressure) in
    Some {| ComputedResult.calculations := [ ("pressure_inwc", Some pressure) ];
            ComputedResult.checks := [ ("building_pressure", result) ];
            ComputedResult.pass := CheckResult.pass result;
            ComputedResult.summary := CheckResult.message result |}
  else None.

(** [AirflowStaticForm]: the effect on the watched values
    [{ supplyCFM, tons, extStatic_inwc }]. *)
Definition AirflowStaticForm_computed (supplyCFM tons extStatic_inwc : float)
  : option ComputedResult.t :=
  if (supplyCFM > #0) && (tons > #0) then
    let cfmPerTon := calculateCfmPerTon supplyCFM tons in
    let cfmCheck := checkCfmPerTon cfmPerTon in
    let staticPass := (extStatic_inwc >= #0.3) && (extStatic_inwc <= #1.5) in
    Some {| ComputedResult.calculations :=
              [ ("cfm_per_ton", Some cfmPerTon);
                ("supply_cfm", Some supplyCFM);
                ("external_static_inwc", Some extStatic_inwc) ];
            ComputedResult.checks :=
              [ ("cfm_per_ton", cfmCheck);
                ("external_static",
                 {| CheckResult.pass := staticPass;
                    CheckResult.value := JsNumber extStatic_inwc;
                    CheckResult.target := "0.3 - 1.5 in. w.c.";
                    CheckResult.message :=
                      if staticPass then "External static pressure within normal range"
                      else if extStatic_inwc < #0.3
                           then "External static pressure too low"
                           else "External static pressure too high - check for restrictions" |}) ];
            ComputedResult.pass := CheckResult.pass cfmCheck && staticPass;
            ComputedResult.summary :=
              "CFM/ton: " ++ number_toFixed cfmPerTon 0 ++ ", Static: "
                ++ number_toFixed extStatic_inwc 2 ++ dquote ++ " w.c." |}
  else None.

(** [RefrigerantCircuitForm]: [sessionData.weatherOADryBulb || 95], the
    default value of the form's [outdoorDB_F]. *)
Definition RefrigerantCircuitForm_outdoorTemp (weatherOADryBulb : option float)
  : option float :=
  js_or weatherOADryBulb (Some #95).

(** [RefrigerantCircuitForm]: the effect on the watched values; [refrigerant]
    is [currentUnit?.refrigerant], a string or [undefined]. *)
Definition RefrigerantCircuitForm_computed (refrigerant : option string)
    (suctionLineTemp_F suctionPSI liquidLineTemp_F liquidPSI : float)
    (outdoorDB_F : option float) : option ComputedResult.t :=
  if (suctionLineTemp_F > #0) && (suctionPSI > #0)
     && (liquidLineTemp_F > #0) && (liquidPSI > #0) then
    let superheat := calculateSuperheat suctionLineTemp_F suctionPSI refrigerant in
    let subcooling := calculateSubcooling liquidLineTemp_F liquidPSI refrigerant in
    let shCheck := checkSuperheat superheat outdoorDB_F in
    let scCheck := checkSubcooling subcooling outdoorDB_F in
    Some {| ComputedResult.calculations :=
              [ ("superheat_F", Some superheat);
                ("subcooling_F", Some subcooling);
                ("suction_psi", Some suctionPSI);
                ("liquid_psi", Some liquidPSI);
                ("suction_temp_F", Some suctionLineTemp_F);
                ("liquid_temp_F", Some liquidLineTemp_F) ];
            ComputedResult.checks := [ ("superheat", shCheck); ("subcooling", scCheck) ];
            ComputedResult.pass := CheckResult.pass shCheck && CheckResult.pass scCheck;
            ComputedResult.summary :=
              "SH: " ++ number_toFixed superheat 1 ++ "°F, SC: "
                ++ number_toFixed subcooling 1 ++ "°F" |}
  else None.

(** [CoilPerformanceForm]: the effect on the watched values. *)
Definition CoilPerformanceForm_computed (returnDB_F returnRH_pct supplyDB_F supplyRH_pct : float)
    (condensateVolume_oz_per_30min : option float) : option ComputedResult.t :=
  if (returnDB_F > #0) && (returnRH_pct > #0) && (supplyDB_F > #0) && (supplyRH_pct > #0) then
    let returnDP := calculateDewPoint returnDB_F returnRH_pct in
    let supplyDP := calculateDewPoint supplyDB_F supplyRH_pct in
    let dewPointDrop := returnDP - supplyDP in
    let tempDrop := returnDB_F - supplyDB_F in
    let supplyDPCheck := checkSupplyDewPoint supplyDP in
    let tempDropPass := (tempDrop >= #8) && (tempDrop <= #25) in
    let rhRise := supplyRH_pct - returnRH_pct in
    let rhPass := (rhRise >= #10) && (rhRise <= #40) in
    Some {| ComputedResult.calculations :=
              [ ("return_dew_point_F", Some returnDP);
                ("supply_dew_point_F", Some supplyDP);
                ("dew_point_drop_F", Some dewPointDrop);
                ("temperature_drop_F", Some tempDrop);
                ("humidity_rise_pct", Some rhRise);
                ("condensate_oz_per_30min", js_or condensateVolume_oz_per_30min (Some #0)) ];
            ComputedResult.checks :=
              [ ("supply_dew_point", supplyDPCheck);
                ("temperature_drop",
                 {| CheckResult.pass := tempDropPass;
                    CheckResult.value := JsNumber tempDrop;
                    CheckResult.target := "8 - 25°F";
                    CheckResult.message :=
                      if tempDropPass then "Temperature drop within normal range"
                      else if tempDrop < #8
                           then "Insufficient cooling - check refrigerant charge"
                           else "Excessive temperature drop - check airflow" |});
                ("humidity_performance",
                 {| CheckResult.pass := rhPass;
                    CheckResult.value := JsNumber rhRise;
                    CheckResult.target := "10 - 40% RH rise";
                    CheckResult.message :=
                      if rhPass then "Good dehumidification performance"
                      else if rhRise < #10
                           then "Low humidity removal - coil may not be cold enough"
                           else "Excessive humidity rise - possible airflow issue" |}) ];
            ComputedResult.pass := CheckResult.pass supplyDPCheck && tempDropPass && rhPass;
            ComputedResult.summary :=
              "Supply DP: " ++ number_toFixed supplyDP 1 ++ "°F, ΔT: "
                ++ number_toFixed tempDrop 1 ++ "°F, ΔRH: +" ++ number_toFixed rhRise 1 ++ "%" |}
  else None.

End Forms.


(** * Specification-side definitions *)

Unset Implicit Arguments.
Set Warnings "-inexact-float".

(** [lo <= x <= hi] as JavaScript evaluates it. *)
Definition within (range : float * float) (x : float) : bool :=
  PrimFloat.leb (fst range) x && PrimFloat.leb x (snd range).

(** The adjustment rule of the specification's table: one range above
    100°F, one below 80°F, the base range otherwise. *)
Definition adjusted_range (hot cold base : float * float) (outdoor : float)
  : float * float :=
  if PrimFloat.ltb 100 outdoor then hot
  else if PrimFloat.ltb outdoor 80 then cold
  else base.

(** The piecewise-linear R-410A approximation, as the specification writes it. *)
Definition saturation_R410A (P : float) : float :=
  (if P <=? 50 then -20 + 1.6 * P
   else if P <=? 100 then 60 + 1.2 * (P - 50)
   else if P <=? 200 then 120 + 0.8 * (P - 100)
   else 200 + 0.4 * (P - 200))%float.

(** The generic approximation for any other refrigerant. *)
Definition saturation_generic (P : float) : float := (32 + 0.5 * P)%float.

(** The logical AND of the [pass] fields of every entry of [checks]. *)
Definition all_checks_pass (result : ComputedResult.t) : bool :=
  forallb (fun entry => CheckResult.pass (snd entry)) (ComputedResult.checks result).

(** The [pass] field of the check stored under [name], if any. *)
Definition check_pass (result : ComputedResult.t) (name : string) : option bool :=
  option_map CheckResult.pass (get (ComputedResult.checks result) name).

(** The outcome is the error of the dispatcher's [default] branch. *)
Definition is_unknown_test_type (c : Completion ComputedResult.t) : bool :=
  match c with Throw (Error _) => true | _ => false end.

(** The keys of the [checks] object literal of each routine. *)
Definition check_names : list (string * list string) :=
  [ ("BUILDING_PRESSURE", ["building_pressure"]);
    ("PRESSURE_DECAY", ["decay_rate"]);
    ("RETURN_CURB_LEAKAGE", ["pressure_balance"; "smoke_leaks"]);
    ("SLAB_WALL_MOISTURE", ["plastic_test"]);
    ("AIRFLOW_STATIC", ["cfm_per_ton"; "external_static"]);
    ("REFRIGERANT_CIRCUIT", ["superheat"; "subcooling"]);
    ("COIL_PERFORMANCE", ["supply_dew_point"; "temperature_drop"]);
    ("FAN_EVAP_RECHECK", ["supply_dew_point"; "static_pressure"]);
    ("ECONOMIZER_SEAL", ["damper_position"; "leakage_test"]);
    ("DISTRIBUTION_MIXING", ["temperature_mixing"; "humidity_mixing"]) ]%string.

(** The average [calculateStats] computes for a non-empty array. *)
Definition mean (values : list float) : float :=
  PrimFloat.div (fold_left PrimFloat.add values 0%float)
                (float_of_Z (Z.of_nat (List.length values))).

(** The whole degrees of the plausible temperature range, -40..150°F. *)
Definition integer_temperatures : list Z :=
  map (fun n => (Z.of_nat n - 40)%Z) (seq 0 191).

(** The dew point at saturation is within [2^-45] (about 2.8e-14) of the
    dry-bulb temperature. *)
Definition saturated_within_rounding `{E : JsEngine} (T : float) : bool :=
  PrimFloat.leb (PrimFloat.abs (calculateDewPoint T 100%float - T)%float) 0x1p-45%float.

(** ** Concrete inputs *)

(** An engine whose [Math.log] is constantly [+0] (so that [Math.log(1)] has
    the value ECMA-262 prescribes), with exact squares and IEEE square roots;
    text rendering is left blank. *)
Definition sample_engine : JsEngine := {|
  engine_log := fun _ => 0%float;
  engine_pow := fun x _ => PrimFloat.mul x x;
  engine_sqrt := PrimFloat.sqrt;
  number_toFixed := fun _ _ => EmptyString;
  number_toString := fun _ => EmptyString;
  string_toLowerCase := fun s => s
|}.

(** [{}]: the object with no field. *)
Definition emptyObject : Reading := {|
  deltaP_inwc := None;
  startDeltaP := None; endDeltaP := None; decaySeconds := None;
  returnStatic_inwc := None; supplyStatic_inwc := None; smokeLeaksFound := None; leakLocations := None;
  plasticTest := None;
  tons := None; supplyCFM := None; returnCFM := None; extStatic_inwc := None;
  outdoorDB_F := None; suctionPSI := None; liquidPSI := None;
  suctionLineTemp_F := None; liquidLineTemp_F := None;
  returnDB_F := None; returnRH_pct := None; supplyDB_F := None; supplyRH_pct := None;
  condensateVolume_oz_per_30min := None; airflowCFM := None; staticPressure_inwc := None;
  commandedPct := None; leakageObserved := None; method := None;
  gridSamples := None; returnDewPoint_F := None
|}.

(** The building-pressure scenario of the specification: 0.035 in. w.c. *)
Definition building_pressure_reading : Reading := {|
  deltaP_inwc := Some 0.035%float;
  startDeltaP := None; endDeltaP := None; decaySeconds := None;
  returnStatic_inwc := None; supplyStatic_inwc := None; smokeLeaksFound := None; leakLocations := None;
  plasticTest := None;
  tons := None; supplyCFM := None; returnCFM := None; extStatic_inwc := None;
  outdoorDB_F := None; suctionPSI := None; liquidPSI := None;
  suctionLineTemp_F := None; liquidLineTemp_F := None;
  returnDB_F := None; returnRH_pct := None; supplyDB_F := None; supplyRH_pct := None;
  condensateVolume_oz_per_30min := None; airflowCFM := None; staticPressure_inwc := None;
  commandedPct := None; leakageObserved := None; method := None;
  gridSamples := None; returnDewPoint_F := None
|}.

(** A refrigerant-circuit reading taken at 105°F by its own field, with a
    superheat of 14°F. *)
Definition hot_reading : Reading := {|
  deltaP_inwc := None;
  startDeltaP := None; endDeltaP := None; decaySeconds := None;
  returnStatic_inwc := None; supplyStatic_inwc := None; smokeLeaksFound := None; leakLocations := None;
  plasticTest := None;
  tons := None; supplyCFM := None; returnCFM := None; extStatic_inwc := None;
  outdoorDB_F := Some 105%float; suctionPSI := Some 100%float; liquidPSI := Some 50%float;
  suctionLineTemp_F := Some 134%float; liquidLineTemp_F := Some 46%float;
  returnDB_F := None; returnRH_pct := None; supplyDB_F := None; supplyRH_pct := None;
  condensateVolume_oz_per_30min := None; airflowCFM := None; staticPressure_inwc := None;
  commandedPct := None; leakageObserved := None; method := None;
  gridSamples := None; returnDewPoint_F := None
|}.

(** A session recorded at 0°F. *)
Definition freezing_session : option WeatherData :=
  Some {| outdoorTemp := Some 0%float; outdoorRH := None |}.

(** An airflow reading (2 tons, 750 CFM) whose external static pressure and
    return CFM are absent. *)
Definition airflow_without_static : Reading := {|
  deltaP_inwc := None;
  startDeltaP := None; endDeltaP := None; decaySeconds := None;
  returnStatic_inwc := None; supplyStatic_inwc := None; smokeLeaksFound := None; leakLocations := None;
  plasticTest := None;
  tons := Some 2%float; supplyCFM := Some 750%float; returnCFM := None; extStatic_inwc := None;
  outdoorDB_F := None; suctionPSI := None; liquidPSI := None;
  suctionLineTemp_F := None; liquidLineTemp_F := None;
  returnDB_F := None; returnRH_pct := None; supplyDB_F := None; supplyRH_pct := None;
  condensateVolume_oz_per_30min := None; airflowCFM := None; staticPressure_inwc := None;
  commandedPct := None; leakageObserved := None; method := None;
  gridSamples := None; returnDewPoint_F := None
|}.

(** A valid airflow reading whose optional return CFM is absent. *)
Definition airflow_without_return : Reading := {|
  deltaP_inwc := None;
  startDeltaP := None; endDeltaP := None; decaySeconds := None;
  returnStatic_inwc := None; supplyStatic_inwc := None; smokeLeaksFound := None; leakLocations := None;
  plasticTest := None;
  tons := Some 2%float; supplyCFM := Some 750%float; returnCFM := None; extStatic_inwc := Some 0.8%float;
  outdoorDB_F := None; suctionPSI := None; liquidPSI := None;
  suctionLineTemp_F := None; liquidLineTemp_F := None;
  returnDB_F := None; returnRH_pct := None; supplyDB_F := None; supplyRH_pct := None;
  condensateVolume_oz_per_30min := None; airflowCFM := None; staticPressure_inwc := None;
  commandedPct := None; leakageObserved := None; method := None;
  gridSamples := None; returnDewPoint_F := None
|}.

(** A pressure-decay reading that starts at 0 in. w.c. *)
Definition decay_from_zero : Reading := {|
  deltaP_inwc := None;
  startDeltaP := Some 0%float; endDeltaP := Some 0.01%float; decaySeconds := Some 60%float;
  returnStatic_inwc := None; supplyStatic_inwc := None; smokeLeaksFound := None; leakLocations := None;
  plasticTest := None;
  tons := None; supplyCFM := None; returnCFM := None; extStatic_inwc := None;
  outdoorDB_F := None; suctionPSI := None; liquidPSI := None;
  suctionLineTemp_F := None; liquidLineTemp_F := None;
  returnDB_F := None; returnRH_pct := None; supplyDB_F := None; supplyRH_pct := None;
  condensateVolume_oz_per_30min := None; airflowCFM := None; staticPressure_inwc := None;
  commandedPct := None; leakageObserved := None; method := None;
  gridSamples := None; returnDewPoint_F := None
|}.

(** Four grid samples at 50% RH with the given dry-bulb temperatures. *)
Definition grid (t1 t2 t3 t4 : float) : list GridSample :=
  [ mkGridSample t1 50%float; mkGridSample t2 50%float;
    mkGridSample t3 50%float; mkGridSample t4 50%float ].

(** A distribution reading whose temperatures spread over 6°F. *)
Definition mixing_reading_6 : Reading := {|
  deltaP_inwc := None;
  startDeltaP := None; endDeltaP := None; decaySeconds := None;
  returnStatic_inwc := None; supplyStatic_inwc := None; smokeLeaksFound := None; leakLocations := None;
  plasticTest := None;
  tons := None; supplyCFM := None; returnCFM := None; extStatic_inwc := None;
  outdoorDB_F := None; suctionPSI := None; liquidPSI := None;
  suctionLineTemp_F := None; liquidLineTemp_F := None;
  returnDB_F := None; returnRH_pct := None; supplyDB_F := None; supplyRH_pct := None;
  condensateVolume_oz_per_30min := None; airflowCFM := None; staticPressure_inwc := None;
  commandedPct := None; leakageObserved := None; method := None;
  gridSamples := Some (grid 70 72 74 76)%float; returnDewPoint_F := Some 55%float
|}.

(** A distribution reading whose temperatures spread over 4°F. *)
Definition mixing_reading_4 : Reading := {|
  deltaP_inwc := None;
  startDeltaP := None; endDeltaP := None; decaySeconds := None;
  returnStatic_inwc := None; supplyStatic_inwc := None; smokeLeaksFound := None; leakLocations := None;
  plasticTest := None;
  tons := None; supplyCFM := None; returnCFM := None; extStatic_inwc := None;
  outdoorDB_F := None; suctionPSI := None; liquidPSI := None;
  suctionLineTemp_F := None; liquidLineTemp_F := None;
  returnDB_F := None; returnRH_pct := None; supplyDB_F := None; supplyRH_pct := None;
  condensateVolume_oz_per_30min := None; airflowCFM := None; staticPressure_inwc := None;
  commandedPct := None; leakageObserved := None; method := None;
  gridSamples := Some (grid 70 71 73 74)%float; returnDewPoint_F := Some 55%float
|}.

(** ** Definitions for the further properties *)

(** Neither NaN nor an infinity. *)
Definition SFfinite (x : spec_float) : Prop :=
  match x with
  | S754_zero _ | S754_finite _ _ _ => True
  | S754_infinity _ | S754_nan => False
  end.

(** [test.pass === v] for a stored verdict. *)
Definition has_verdict (v : option bool) (test : TestResult.t) : bool :=
  match TestResult.pass test, v with
  | Some true, Some true | Some false, Some false | None, None => true
  | _, _ => false
  end.

(** The number of tests of a given type. *)
Definition count_of_type (testType : string) (tests : list TestResult.t) : nat :=
  List.length (filter (fun test => String.eqb (TestResult.testType test) testType) tests).

(** The sum of the values of an object of counters. *)
Definition total (o : list (string * nat)) : nat := list_sum (map snd o).

(** A submission: test type, reading, and the session it belongs to. *)
Definition Submission : Type := (string * Reading * SessionRecord)%type.

(** The reading lacks the field its routine calls a method on. *)
Definition lacks_required_field (testType : string) (reading : Reading) : bool :=
  (String.eqb testType "SLAB_WALL_MOISTURE"
   && match plasticTest reading with None => true | Some _ => false end)
  || (String.eqb testType "DISTRIBUTION_MIXING"
      && match gridSamples reading with None => true | Some _ => false end).

(** The submission is accepted and its reading has the field its routine needs. *)
Definition computable (s : Submission) : bool :=
  CreateTestResultSchema (fst (fst s)) && negb (lacks_required_field (fst (fst s)) (snd (fst s))).

(** The submission is accepted and its reading lacks that field. *)
Definition uncomputable (s : Submission) : bool :=
  CreateTestResultSchema (fst (fst s)) && lacks_required_field (fst (fst s)) (snd (fst s)).

(** The rows stored for a list of submissions, in order. *)
Definition stored `{E : JsEngine} (submissions : list Submission) : list TestResult.t :=
  flat_map (fun s => match POST (fst (fst s)) (snd (fst s)) (snd s) with
                     | status201 testResult => [testResult]
                     | status400 => []
                     end) submissions.

(** ** Concrete inputs for the further properties *)

(** A pressure-decay reading of zero duration that loses 20 in. w.c. *)
Definition zero_duration_reading : Reading := {|
  deltaP_inwc := None;
  startDeltaP := Some 10%float; endDeltaP := Some (-10)%float; decaySeconds := Some 0%float;
  returnStatic_inwc := None; supplyStatic_inwc := None; smokeLeaksFound := None; leakLocations := None;
  plasticTest := None;
  tons := None; supplyCFM := None; returnCFM := None; extStatic_inwc := None;
  outdoorDB_F := None; suctionPSI := None; liquidPSI := None;
  suctionLineTemp_F := None; liquidLineTemp_F := None;
  returnDB_F := None; returnRH_pct := None; supplyDB_F := None; supplyRH_pct := None;
  condensateVolume_oz_per_30min := None; airflowCFM := None; staticPressure_inwc := None;
  commandedPct := None; leakageObserved := None; method := None;
  gridSamples := None; returnDewPoint_F := None
|}.

(** An economizer reading with the damper commanded to 50% and no leakage observed. *)
Definition open_damper_reading : Reading := {|
  deltaP_inwc := None;
  startDeltaP := None; endDeltaP := None; decaySeconds := None;
  returnStatic_inwc := None; supplyStatic_inwc := None; smokeLeaksFound := None; leakLocations := None;
  plasticTest := None;
  tons := None; supplyCFM := None; returnCFM := None; extStatic_inwc := None;
  outdoorDB_F := None; suctionPSI := None; liquidPSI := None;
  suctionLineTemp_F := None; liquidLineTemp_F := None;
  returnDB_F := None; returnRH_pct := None; supplyDB_F := None; supplyRH_pct := None;
  condensateVolume_oz_per_30min := None; airflowCFM := None; staticPressure_inwc := None;
  commandedPct := Some 50%float; leakageObserved := Some false; method := Some "SMOKE"%string;
  gridSamples := None; returnDewPoint_F := None
|}.

(** A distribution reading with a single grid sample. *)
Definition single_sample_reading : Reading := {|
  deltaP_inwc := None;
  startDeltaP := None; endDeltaP := None; decaySeconds := None;
  returnStatic_inwc := None; supplyStatic_inwc := None; smokeLeaksFound := None; leakLocations := None;
  plasticTest := None;
  tons := None; supplyCFM := None; returnCFM := None; extStatic_inwc := None;
  outdoorDB_F := None; suctionPSI := None; liquidPSI := None;
  suctionLineTemp_F := None; liquidLineTemp_F := None;
  returnDB_F := None; returnRH_pct := None; supplyDB_F := None; supplyRH_pct := None;
  condensateVolume_oz_per_30min := None; airflowCFM := None; staticPressure_inwc := None;
  commandedPct := None; leakageObserved := None; method := None;
  gridSamples := Some [mkGridSample 72%float 50%float]; returnDewPoint_F := Some 55%float
|}.

(** The coil-performance scenario of the specification. *)
Definition coil_reading : Reading := {|
  deltaP_inwc := None;
  startDeltaP := None; endDeltaP := None; decaySeconds := None;
  returnStatic_inwc := None; supplyStatic_inwc := None; smokeLeaksFound := None; leakLocations := None;
  plasticTest := None;
  tons := None; supplyCFM := None; returnCFM := None; extStatic_inwc := None;
  outdoorDB_F := None; suctionPSI := None; liquidPSI := None;
  suctionLineTemp_F := None; liquidLineTemp_F := None;
  returnDB_F := Some 75%float; returnRH_pct := Some 55%float; supplyDB_F := Some 58%float; supplyRH_pct := Some 85%float;
  condensateVolume_oz_per_30min := None; airflowCFM := None; staticPressure_inwc := None;
  commandedPct := None; leakageObserved := None; method := None;
  gridSamples := None; returnDewPoint_F := None
|}.

(** A session recorded at 105°F, and one without weather. *)
Definition hot_session : SessionRecord :=
  {| weatherOADryBulb := Some 105%float; weatherOARH := None |}.
Definition plain_session : SessionRecord :=
  {| weatherOADryBulb := None; weatherOARH := None |}.

(** Three stored tests: passed, failed, without verdict. *)
Definition three_tests : list TestResult.t :=
  [ TestResult.mk "BUILDING_PRESSURE" None (Some true);
    TestResult.mk "AIRFLOW_STATIC" None (Some false);
    TestResult.mk "BUILDING_PRESSURE" None None ]%string.

(** A slab reading without plastic test, submitted with two other readings
    and one of an unknown type. *)
Definition four_submissions : list Submission :=
  [ ("SLAB_WALL_MOISTURE", emptyObject, plain_session);
    ("BUILDING_PRESSURE", building_pressure_reading, plain_session);
    ("HUMIDITY_RISE", emptyObject, plain_session);
    ("COIL_PERFORMANCE", coil_reading, plain_session) ]%string.

(** * Properties *)

(** Replace every decimal literal by the binary64 value it denotes. *)
Ltac eval_literals :=
  repeat match goal with
         | |- context [float_lit ?q] =>
             let v := eval vm_compute in (float_lit q) in
             change (float_lit q) with v
         end.

(** Split a list hypothesis [Forall P [x1; ...; xn]] into its [n] facts. *)
Ltac split_Forall :=
  repeat match goal with
         | H : Forall _ (_ :: _) |- _ => inversion H; subst; clear H
         end.

(** ** Binary64 facts *)

(** Multiplication of binary64 values is commutative. *)
Lemma float_mul_comm (x y : float) : PrimFloat.mul x y = PrimFloat.mul y x.
Proof.
  apply Prim2SF_inj. rewrite !mul_spec. unfold SF64mul, SFmul.
  destruct (Prim2SF x) as [sx|sx| |sx mx ex], (Prim2SF y) as [sy|sy| |sy my ey];
    try reflexivity; try (rewrite xorb_comm; reflexivity).
  rewrite xorb_comm, Pos.mul_comm, Z.add_comm. reflexivity.
Qed.

(** The decimal literals of the program denote the binary64 values a
    JavaScript parser gives them. *)
Lemma float_lit_values :
  map float_lit
      [0; 2; 5; 6; 8; 9; 10; 12; 15; 18; 25; 32; 50; 55; 60; 80; 95; 100; 120; 200;
       350; 400; -20; 17.625; 243.04; 1.6; 1.2; 0.8; 0.4; 0.5; 0.02; 0.05; 0.3; 1.5;
       0.01; 0.1]%Q
  = [0; 2; 5; 6; 8; 9; 10; 12; 15; 18; 25; 32; 50; 55; 60; 80; 95; 100; 120; 200;
     350; 400; -20; 17.625; 243.04; 1.6; 1.2; 0.8; 0.4; 0.5; 0.02; 0.05; 0.3; 1.5;
     0.01; 0.1]%float.
Proof. reflexivity. Qed.

Lemma nan_not_finite (r : float) :
  Prim2SF r = S754_nan -> PrimFloat.is_finite r = false.
Proof.
  intros H. unfold PrimFloat.is_finite, PrimFloat.is_nan.
  rewrite FloatAxioms.eqb_spec, H. reflexivity.
Qed.

Lemma infinity_not_finite (r : float) (sign : bool) :
  Prim2SF r = S754_infinity sign -> PrimFloat.is_finite r = false.
Proof.
  intros H. unfold PrimFloat.is_finite, PrimFloat.is_nan, PrimFloat.is_infinity.
  rewrite !FloatAxioms.eqb_spec, abs_spec, H.
  change (Prim2SF infinity) with (S754_infinity false).
  destruct sign; reflexivity.
Qed.

(** [x === 0] holds of the two zeros only. *)
Lemma strict_eq_zero (x : float) :
  PrimFloat.eqb x 0%float = true -> exists sign, Prim2SF x = S754_zero sign.
Proof.
  rewrite FloatAxioms.eqb_spec. change (Prim2SF 0%float) with (S754_zero false).
  destruct (Prim2SF x) as [sign|sign| |sign m e]; cbn; try discriminate.
  - intros _. now exists sign.
  - destruct sign; discriminate.
  - destruct sign; discriminate.
Qed.

(** Dividing the total decay by a zero start pressure never gives a finite
    number: the quotient is NaN or an infinity, and so is its product by 100. *)
Lemma percentage_of_zero_start (start finish : float) :
  PrimFloat.eqb start 0%float = true ->
  PrimFloat.is_finite ((start - finish) / start * 100)%float = false.
Proof.
  intros Hz. destruct (strict_eq_zero start Hz) as [sz Hs].
  assert (Hr : Prim2SF ((start - finish) / start * 100)%float = S754_nan
               \/ exists sign, Prim2SF ((start - finish) / start * 100)%float
                                = S754_infinity sign).
  { rewrite mul_spec, div_spec, sub_spec, Hs.
    let v := eval vm_compute in (Prim2SF 100%float) in change (Prim2SF 100%float) with v.
    unfold SF64mul, SF64div, SF64sub, SFmul, SFdiv, SFsub.
    destruct (Prim2SF finish) as [sf|sf| |sf m e]; destruct sz; try destruct sf; eauto. }
  destruct Hr as [Hr|[sign Hr]];
    [now apply nan_not_finite | now apply infinity_not_finite with sign].
Qed.

(** A zero is within the bounds of [pressureSchema]. *)
Lemma zero_is_valid_pressure (x : float) :
  PrimFloat.eqb x 0%float = true -> pressureSchema (Some x) = true.
Proof.
  intros Hz. destruct (strict_eq_zero x Hz) as [sign Hs].
  unfold pressureSchema, z_number. eval_literals.
  rewrite FloatAxioms.leb_spec, (FloatAxioms.leb_spec x), Hs.
  let v := eval vm_compute in (Prim2SF (-10)%float) in change (Prim2SF (-10)%float) with v.
  let v := eval vm_compute in (Prim2SF 10%float) in change (Prim2SF 10%float) with v.
  reflexivity.
Qed.

(** ** Exact-arithmetic facts *)

(** Inverting the Magnus formula at a humidity term [L <= 0] lands at or
    below the starting temperature. *)
Lemma magnus_inverse_bound (a b tc L : R) :
  (0 < a -> 0 < b + tc -> 0 < b -> L <= 0 ->
   b * (L + a * tc / (b + tc)) / (a - (L + a * tc / (b + tc))) <= tc)%R.
Proof.
  intros Ha Hbt Hb HL.
  assert (Hg : (a - a * tc / (b + tc) = a * b / (b + tc))%R) by (field; lra).
  assert (Hpos : (0 < a * b / (b + tc))%R).
  { apply Rdiv_lt_0_compat; [apply Rmult_lt_0_compat|]; assumption. }
  assert (Hden : (0 < a - (L + a * tc / (b + tc)))%R) by lra.
  set (g := (a * tc / (b + tc))%R) in *.
  apply (Rmult_le_reg_r (a - (L + g))%R); [assumption|].
  unfold Rdiv at 1. rewrite Rmult_assoc, Rinv_l by lra. rewrite Rmult_1_r.
  assert (Hx : ((b + tc) * g = a * tc)%R) by (unfold g; field; lra).
  assert (HLt : (L * (b + tc) <= 0)%R).
  { replace 0%R with (0 * (b + tc))%R by ring. apply Rmult_le_compat_r; lra. }
  nra.
Qed.

(** At saturation the humidity term vanishes and the inversion is exact. *)
Lemma magnus_inverse_saturated (a b tc : R) :
  (0 < a -> 0 < b + tc -> 0 < b ->
   b * (0 + a * tc / (b + tc)) / (a - (0 + a * tc / (b + tc))) = tc)%R.
Proof.
  intros Ha Hbt Hb.
  assert (Hg : (a - (0 + a * tc / (b + tc)) = a * b / (b + tc))%R) by (field; lra).
  rewrite Hg. field. repeat split; lra.
Qed.

Section Properties.
Context `{E : JsEngine}.

(** ** Degenerate inputs of the numeric primitives *)

(** C6: the guarded primitives return their defined value on degenerate
    input: [calculateCfmPerTon(cfm, 0) = 0] for every [cfm],
    [calculatePressureDecayRate(start, end, 0) = 0] for every [start] and
    [end], and [calculateStats([])] is the all-zero record.  The functions
    are total, so no exception is raised. *)
Theorem degenerate_inputs_return_zero :
  (forall cfm : float, calculateCfmPerTon cfm 0%float = 0%float)
  /\ (forall startPressure endPressure : float,
        calculatePressureDecayRate startPressure endPressure 0%float = 0%float)
  /\ calculateStats [] =
       {| Stats.min := 0%float; Stats.max := 0%float;
          Stats.avg := 0%float; Stats.stdDev := 0%float |}.
Proof.
  split; [|split]; intros; reflexivity.
Qed.

(** The guards use [===], so a negative zero is caught as well. *)
Lemma degenerate_negative_zero (x y : float) :
  calculateCfmPerTon x (-0)%float = 0%float
  /\ calculatePressureDecayRate x y (-0)%float = 0%float.
Proof. split; reflexivity. Qed.

(** ** Superheat and subcooling ranges *)

Lemma superheatRange_spec (t : float) :
  superheatRange t = adjusted_range (6, 12)%float (10, 18)%float (8, 15)%float t.
Proof.
  unfold superheatRange, adjusted_range, gt; cbn [lt lit Binary64].
  eval_literals.
  destruct (PrimFloat.ltb 100 t); [reflexivity|].
  destruct (PrimFloat.ltb t 80); reflexivity.
Qed.

Lemma subcoolingRange_spec (t : float) :
  subcoolingRange t = adjusted_range (10, 18)%float (6, 12)%float (8, 15)%float t.
Proof.
  unfold subcoolingRange, adjusted_range, gt; cbn [lt lit Binary64].
  eval_literals.
  destruct (PrimFloat.ltb 100 t); [reflexivity|].
  destruct (PrimFloat.ltb t 80); reflexivity.
Qed.

Lemma checkSuperheat_pass (s t : float) :
  CheckResult.pass (checkSuperheat s (Some t)) = within (superheatRange t) s.
Proof.
  unfold checkSuperheat, within. destruct (superheatRange t) as [lo hi]. reflexivity.
Qed.

Lemma checkSubcooling_pass (c t : float) :
  CheckResult.pass (checkSubcooling c (Some t)) = within (subcoolingRange t) c.
Proof.
  unfold checkSubcooling, within. destruct (subcoolingRange t) as [lo hi]. reflexivity.
Qed.

(** C3: [checkSuperheat(s, t)] passes iff [s] lies in 6..12 when [t > 100],
    in 10..18 when [t < 80] and in 8..15 otherwise; [checkSubcooling(c, t)]
    passes iff [c] lies in 10..18 when [t > 100], in 6..12 when [t < 80] and
    in 8..15 otherwise.  At exactly 80 and 100 the base range applies. *)
Theorem superheat_subcooling_ranges (s c t : float) :
  CheckResult.pass (checkSuperheat s (Some t))
    = within (adjusted_range (6, 12)%float (10, 18)%float (8, 15)%float t) s
  /\ CheckResult.pass (checkSubcooling c (Some t))
    = within (adjusted_range (10, 18)%float (6, 12)%float (8, 15)%float t) c
  /\ CheckResult.pass (checkSuperheat s (Some 80%float)) = within (8, 15)%float s
  /\ CheckResult.pass (checkSuperheat s (Some 100%float)) = within (8, 15)%float s
  /\ CheckResult.pass (checkSubcooling c (Some 80%float)) = within (8, 15)%float c
  /\ CheckResult.pass (checkSubcooling c (Some 100%float)) = within (8, 15)%float c.
Proof.
  rewrite !checkSuperheat_pass, !checkSubcooling_pass.
  rewrite !superheatRange_spec, !subcoolingRange_spec.
  repeat split; reflexivity.
Qed.

(** The boundary values the specification asks to test. *)
Example range_boundaries :
  map superheatRange [79.99; 80; 80.01; 100; 100.01]%float
    = [(10, 18); (8, 15); (8, 15); (8, 15); (6, 12)]%float
  /\ map subcoolingRange [79.99; 80; 80.01; 100; 100.01]%float
    = [(6, 12); (8, 15); (8, 15); (8, 15); (10, 18)]%float.
Proof. split; reflexivity. Qed.

(** ** Saturation temperature, superheat and subcooling *)

Lemma getSaturationTemp_spec (P : float) (refrigerant : string) :
  getSaturationTemp P refrigerant
    = if String.eqb refrigerant "R-410A" then saturation_R410A P else saturation_generic P.
Proof.
  unfold getSaturationTemp, saturation_R410A, saturation_generic.
  cbn [le lit add sub mul Binary64]. eval_literals.
  destruct (String.eqb refrigerant "R-410A").
  - destruct (PrimFloat.leb P 50); [now rewrite float_mul_comm|].
    destruct (PrimFloat.leb P 100); [now rewrite float_mul_comm|].
    destruct (PrimFloat.leb P 200); now rewrite float_mul_comm.
  - now rewrite float_mul_comm.
Qed.

(** C4: with the default refrigerant, [calculateSuperheat(T, P)] is [T] minus
    the piecewise-linear saturation temperature (-20+1.6P up to 50 PSI,
    60+1.2(P-50) up to 100, 120+0.8(P-100) up to 200, 200+0.4(P-200) above),
    [calculateSubcooling(T, P)] is that saturation temperature minus [T], and
    for any refrigerant other than 'R-410A' the saturation temperature is
    32+0.5P. *)
Theorem superheat_subcooling_formulas (T P : float) (refrigerant : string) :
  calculateSuperheat T P None = (T - saturation_R410A P)%float
  /\ calculateSubcooling T P None = (saturation_R410A P - T)%float
  /\ getSaturationTemp P refrigerant
       = (if String.eqb refrigerant "R-410A" then saturation_R410A P else 32 + 0.5 * P)%float.
Proof.
  unfold calculateSuperheat, calculateSubcooling.
  rewrite !getSaturationTemp_spec. repeat split; reflexivity.
Qed.

(** The refrigerant-circuit scenario of the specification: 45°F at 118 PSI on
    the suction line, 85°F at 285 PSI on the liquid line. *)
Example refrigerant_scenario :
  calculateSuperheat 45%float 118%float None = (45 - (120 + 0.8 * (118 - 100)))%float
  /\ calculateSubcooling 85%float 285%float None = (200 + 0.4 * (285 - 200) - 85)%float
  /\ calculateSubcooling 85%float 285%float None = 149%float.
Proof. repeat split; reflexivity. Qed.

(** ** The dispatcher *)

Lemma recognized_false (testType : string) :
  recognized testType = false ->
  Forall (fun known => String.eqb testType known = false) TestType.
Proof.
  unfold recognized. induction TestType as [|known rest IH]; cbn; intros H.
  - constructor.
  - apply orb_false_iff in H. destruct H. constructor; auto.
Qed.

Lemma recognized_cases (testType : string) :
  recognized testType = true -> In testType TestType.
Proof.
  unfold recognized. intros H. apply existsb_exists in H.
  destruct H as [known [Hin Heq]]. apply String.eqb_eq in Heq. now subst.
Qed.

(** An unrecognized discriminant reaches the [default] branch. *)
Lemma computeTestResult_unknown (testType : string) (reading : Reading)
    (weatherData : option WeatherData) :
  recognized testType = false ->
  computeTestResult testType reading weatherData
    = Throw (Error ("Unknown test type: " ++ testType)).
Proof.
  intros H. apply recognized_false in H. unfold TestType in H. split_Forall.
  unfold computeTestResult.
  repeat match goal with
         | H : String.eqb testType _ = false |- _ => rewrite H; clear H
         end.
  reflexivity.
Qed.

(** A schema only accepts a recognized discriminant. *)
Lemma TestReadingSchema_recognized (testType : string) (reading : Reading) :
  TestReadingSchema testType reading = true -> recognized testType = true.
Proof.
  intros Hvalid. destruct (recognized testType) eqn:Hr; [reflexivity|].
  apply recognized_false in Hr. unfold TestType in Hr. split_Forall.
  unfold TestReadingSchema in Hvalid.
  repeat match goal with
         | H : String.eqb testType _ = false |- _ => rewrite H in Hvalid; clear H
         end.
  discriminate.
Qed.

End Properties.

(** Case analysis on a recognized discriminant: one goal per test type. *)
Ltac each_test_type H :=
  apply recognized_cases in H; unfold TestType in H; cbn [In] in H;
  repeat (destruct H as [H|H]; [subst|]); [..|contradiction].

Section Dispatch.
Context `{E : JsEngine}.

Lemma computeTestResult_known (testType : string) (reading : Reading)
    (weatherData : option WeatherData) :
  recognized testType = true ->
  is_unknown_test_type (computeTestResult testType reading weatherData) = false.
Proof.
  intros H. each_test_type H; cbn; try reflexivity.
  - unfold computeSlabWallMoisture.
    destruct (plasticTest reading) as [s|]; [destruct (String.eqb s "DRY")|]; reflexivity.
  - unfold computeDistributionMixing. destruct (gridSamples reading); reflexivity.
Qed.

(** A reading that satisfies its schema is processed to a result. *)
Lemma computeTestResult_valid (testType : string) (reading : Reading)
    (weatherData : option WeatherData) :
  TestReadingSchema testType reading = true ->
  exists result, computeTestResult testType reading weatherData = Return result.
Proof.
  intros Hvalid. pose proof (TestReadingSchema_recognized testType reading Hvalid) as H.
  each_test_type H; cbn in *; try (eexists; reflexivity).
  - unfold SlabWallMoistureSchema, z_enum in Hvalid. unfold computeSlabWallMoisture.
    destruct (plasticTest reading) as [s|]; [|discriminate].
    destruct (String.eqb s "DRY"); eexists; reflexivity.
  - unfold DistributionMixingSchema in Hvalid. unfold computeDistributionMixing.
    destruct (gridSamples reading); [eexists; reflexivity|discriminate].
Qed.

(** The only other exception is the TypeError of a method call on an absent
    [plasticTest] or [gridSamples]. *)
Lemma type_error_only_on_absent_field (testType : string) (reading : Reading)
    (weatherData : option WeatherData) :
  computeTestResult testType reading weatherData = Throw TypeError ->
  (testType = "SLAB_WALL_MOISTURE"%string /\ plasticTest reading = None)
  \/ (testType = "DISTRIBUTION_MIXING"%string /\ gridSamples reading = None).
Proof.
  intros Hthrow.
  assert (H : recognized testType = true).
  { destruct (recognized testType) eqn:Hr; [reflexivity|].
    rewrite computeTestResult_unknown in Hthrow by assumption. discriminate. }
  each_test_type H; cbn in Hthrow; try discriminate.
  - left. split; [reflexivity|]. unfold computeSlabWallMoisture in Hthrow.
    destruct (plasticTest reading) as [s|]; [|reflexivity].
    destruct (String.eqb s "DRY"); discriminate.
  - right. split; [reflexivity|]. unfold computeDistributionMixing in Hthrow.
    destruct (gridSamples reading); [discriminate|reflexivity].
Qed.

(** C5: [computeTestResult] throws the "Unknown test type" error exactly when
    the discriminant is not one of the ten recognized values; for a recognized
    value it never throws that error, and on a reading valid for its schema it
    returns a [ComputedResult]. *)
Theorem unknown_test_type_is_signalled (testType : string) (reading : Reading)
    (weatherData : option WeatherData) :
  (recognized testType = false ->
     computeTestResult testType reading weatherData
       = Throw (Error ("Unknown test type: " ++ testType)))
  /\ is_unknown_test_type (computeTestResult testType reading weatherData)
       = negb (recognized testType)
  /\ (TestReadingSchema testType reading = true ->
       exists result, computeTestResult testType reading weatherData = Return result).
Proof.
  split; [apply computeTestResult_unknown|]. split; [|apply computeTestResult_valid].
  destruct (recognized testType) eqn:H.
  - now apply computeTestResult_known.
  - now rewrite computeTestResult_unknown.
Qed.

(** ** Overall verdict and the entries of [checks] *)

(** Whatever the reading, a returned result carries the AND of its checks,
    and its [checks] map has exactly the entries of its routine's object
    literal: no entry is ever left out. *)
Lemma checks_on_return (testType : string) (reading : Reading)
    (weatherData : option WeatherData) (result : ComputedResult.t) :
  computeTestResult testType reading weatherData = Return result ->
  ComputedResult.pass result = all_checks_pass result
  /\ get check_names testType = Some (keys (ComputedResult.checks result)).
Proof.
  intros Hret.
  assert (H : recognized testType = true).
  { destruct (recognized testType) eqn:Hr; [reflexivity|].
    rewrite computeTestResult_unknown in Hret by assumption. discriminate. }
  unfold all_checks_pass.
  each_test_type H; cbn in Hret;
    try (injection Hret as <-; cbn; rewrite ?andb_true_r; split; reflexivity).
  - unfold computeSlabWallMoisture in Hret.
    destruct (plasticTest reading) as [s|]; [destruct (String.eqb s "DRY")|];
      try discriminate; injection Hret as <-; split; reflexivity.
  - unfold computeDistributionMixing in Hret.
    destruct (gridSamples reading); [|discriminate].
    injection Hret as <-; cbn; rewrite ?andb_true_r; split; reflexivity.
Qed.

(** C1: for every recognized test type and every reading valid for its
    schema, [computeTestResult] returns a result whose [pass] is the logical
    AND of the [pass] fields of all entries of its [checks] map. *)
Theorem pass_is_and_of_checks (testType : string) (reading : Reading)
    (weatherData : option WeatherData) :
  recognized testType = true ->
  TestReadingSchema testType reading = true ->
  exists result,
    computeTestResult testType reading weatherData = Return result
    /\ ComputedResult.pass result = all_checks_pass result.
Proof.
  intros _ Hvalid.
  destruct (computeTestResult_valid testType reading weatherData Hvalid) as [result Hret].
  exists result. split; [assumption|].
  now apply (checks_on_return testType reading weatherData).
Qed.

End Dispatch.

Section Routines_properties.
Context `{E : JsEngine}.

(** ** Outdoor temperature of the refrigerant circuit *)

(** What [computeRefrigerantCircuit] hands to both checks. *)
Lemma refrigerant_checks (data : Reading) (outdoor : option float) :
  ComputedResult.checks (computeRefrigerantCircuit data outdoor)
  = [ ("superheat"%string,
       checkSuperheat
         (calculateSuperheat (ToNumber (suctionLineTemp_F data)) (ToNumber (suctionPSI data)) None)
         (js_or outdoor (outdoorDB_F data)));
      ("subcooling"%string,
       checkSubcooling
         (calculateSubcooling (ToNumber (liquidLineTemp_F data)) (ToNumber (liquidPSI data)) None)
         (js_or outdoor (outdoorDB_F data))) ].
Proof. reflexivity. Qed.

(** The chain as the code evaluates it: a truthy session temperature wins;
    otherwise the reading's field is taken as it is; an absent field leaves
    the default 95 of the checks. *)
Lemma outdoor_chain (session field : option float) :
  (ToBoolean session = true -> js_or session field = session)
  /\ (ToBoolean session = false -> js_or session field = field)
  /\ (forall s, checkSuperheat s None = checkSuperheat s (Some 95%float))
  /\ (forall c, checkSubcooling c None = checkSubcooling c (Some 95%float)).
Proof.
  unfold js_or. repeat split; intros; try reflexivity.
  - now rewrite H.
  - now rewrite H.
Qed.

(** A session temperature of 0°F is falsy, whatever the reading holds. *)
Lemma session_zero_is_falsy (field : option float) :
  js_or (Some 0%float) field = field.
Proof. reflexivity. Qed.

(** C2 fails at a session temperature of 0°F: the reading's own 105°F is
    used, so a superheat of 14°F is judged against the hot range 6..12 and
    fails, whereas against the cold range 10..18 that 0°F selects it passes. *)
Theorem session_zero_outdoor_temp_ignored :
  RefrigerantCircuitSchema hot_reading = true
  /\ exists result,
       computeTestResult "REFRIGERANT_CIRCUIT" hot_reading freezing_session = Return result
       /\ get (ComputedResult.checks result) "superheat"
            = Some (checkSuperheat 14%float (Some 105%float))
       /\ superheatRange 105%float = (6, 12)%float
       /\ CheckResult.pass (checkSuperheat 14%float (Some 105%float)) = false
       /\ superheatRange 0%float = (10, 18)%float
       /\ CheckResult.pass (checkSuperheat 14%float (Some 0%float)) = true.
Proof.
  split; [reflexivity|]. eexists. split; [reflexivity|]. repeat split.
Qed.

(** ** Percentage decay *)

(** C10: [computePressureDecay] divides by [startDeltaP] without a guard.
    For every reading, [decay_percentage] is
    [(startDeltaP - endDeltaP) / startDeltaP * 100]; when [startDeltaP] is
    zero, a value its schema accepts, the division by zero is evaluated and
    the entry is NaN or an infinity rather than a finite number, whereas the
    guarded [decay_rate_per_min] of a zero duration is 0. *)
Theorem decay_percentage_unguarded (data : Reading) (weatherData : option WeatherData)
    (start finish : float) :
  startDeltaP data = Some start ->
  endDeltaP data = Some finish ->
  exists result,
    computeTestResult "PRESSURE_DECAY" data weatherData = Return result
    /\ get (ComputedResult.calculations result) "decay_percentage"
         = Some (Some ((start - finish) / start * 100)%float)
    /\ (PrimFloat.eqb start 0%float = true ->
         pressureSchema (Some start) = true
         /\ PrimFloat.is_finite ((start - finish) / start * 100)%float = false)
    /\ (decaySeconds data = Some 0%float ->
         get (ComputedResult.calculations result) "decay_rate_per_min" = Some (Some 0%float)).
Proof.
  intros Hs He. eexists. split; [reflexivity|].
  unfold computePressureDecay.
  cbn [ComputedResult.calculations get String.eqb Ascii.eqb Bool.eqb].
  rewrite Hs, He. cbn [ToNumber]. split; [reflexivity|]. split.
  - intros Hz. split; [now apply zero_is_valid_pressure|now apply percentage_of_zero_start].
  - intros Hd. rewrite Hd. reflexivity.
Qed.

(** ** Distribution and mixing *)

Lemma calculateStats_nonempty (v : float) (vs : list float) :
  let values := v :: vs in
  Stats.min (calculateStats values) = Math_min values
  /\ Stats.max (calculateStats values) = Math_max values
  /\ Stats.avg (calculateStats values) = mean values.
Proof. repeat split. Qed.


(** The two mixing scenarios of the specification. *)
Example mixing_scenarios :
  (exists result,
      computeTestResult "DISTRIBUTION_MIXING" mixing_reading_6 None = Return result
      /\ get (ComputedResult.calculations result) "temp_variation_F" = Some (Some 6%float)
      /\ check_pass result "temperature_mixing" = Some false
      /\ ComputedResult.pass result = false)
  /\ (exists result,
      computeTestResult "DISTRIBUTION_MIXING" mixing_reading_4 None = Return result
      /\ get (ComputedResult.calculations result) "temp_variation_F" = Some (Some 4%float)
      /\ check_pass result "temperature_mixing" = Some true
      /\ ComputedResult.pass result = true).
Proof.
  split; eexists; (split; [reflexivity|]); repeat split.
Qed.

End Routines_properties.

Section Missing_fields.
Context `{E : JsEngine}.

(** ** Missing fields *)

(** C7, as the code has it: a reading valid for its schema, whose optional
    fields may be absent, is processed without raising, and an absent
    [returnCFM] or [condensateVolume_oz_per_30min] is reported as 0 in
    [calculations]; no check is ever skipped: whatever fields are absent, a
    returned result has exactly the check entries of its test type, and a
    check whose input field is absent is still evaluated: [external_static]
    without [extStatic_inwc] is present with [pass] false. *)
Theorem missing_fields_keep_checks (testType : string) (reading : Reading)
    (weatherData : option WeatherData) :
  (TestReadingSchema testType reading = true ->
   exists result,
     computeTestResult testType reading weatherData = Return result
     /\ (testType = "AIRFLOW_STATIC"%string -> returnCFM reading = None ->
         get (ComputedResult.calculations result) "return_cfm" = Some (Some 0%float))
     /\ (testType = "COIL_PERFORMANCE"%string -> condensateVolume_oz_per_30min reading = None ->
         get (ComputedResult.calculations result) "condensate_oz_per_30min"
           = Some (Some 0%float)))
  /\ (forall result,
        computeTestResult testType reading weatherData = Return result ->
        get check_names testType = Some (keys (ComputedResult.checks result))
        /\ (testType = "AIRFLOW_STATIC"%string -> extStatic_inwc reading = None ->
            check_pass result "external_static" = Some false)).
Proof.
  split.
  - intros Hvalid.
    destruct (computeTestResult_valid testType reading weatherData Hvalid) as [result Hret].
    exists result. split; [assumption|]. split; intros -> Hnone.
    + cbn in Hret. injection Hret as <-. cbn. rewrite Hnone. reflexivity.
    + cbn in Hret. injection Hret as <-. cbn. rewrite Hnone. reflexivity.
  - intros result Hret. split; [now apply (checks_on_return testType reading weatherData)|].
    intros -> Hnone. cbn in Hret. injection Hret as <-.
    unfold check_pass. cbn. rewrite Hnone. reflexivity.
Qed.

End Missing_fields.

Section Dew_point_binary64.
Context `{E : JsEngine}.

(** ** Dew point in binary64 *)

(** With [Math.log(1) = +0], the dew point of 77°F air at saturation is one
    unit in the last place above 77, whatever else the engine does. *)
Lemma dew_point_saturated_binary64 :
  ecma_log_one E ->
  calculateDewPoint 77%float 100%float = 77.000000000000014%float.
Proof.
  unfold ecma_log_one. intros Hlog. unfold calculateDewPoint.
  cbn [lit add sub mul div Math_log Binary64]. eval_literals.
  change (100 / 100)%float with 1%float. rewrite Hlog. reflexivity.
Qed.

(** At saturation the result does not depend on the engine beyond
    [Math.log(1)]. *)
Lemma dew_point_saturated_engine (T : float) :
  ecma_log_one E ->
  calculateDewPoint T 100%float = @calculateDewPoint float (@Binary64 sample_engine) T 100%float.
Proof.
  unfold ecma_log_one. intros Hlog. unfold calculateDewPoint.
  cbn [lit add sub mul div Math_log Binary64 engine_log sample_engine]. eval_literals.
  change (100 / 100)%float with 1%float. rewrite Hlog. reflexivity.
Qed.

(** For every whole temperature of the plausible range, the binary64 dew
    point at saturation is within rounding of the dry-bulb temperature. *)
Lemma saturated_integer_temperatures (z : Z) :
  ecma_log_one E ->
  (-40 <= z <= 150)%Z ->
  saturated_within_rounding (float_of_Z z) = true.
Proof.
  intros Hlog Hz. unfold saturated_within_rounding.
  rewrite (dew_point_saturated_engine _ Hlog).
  assert (Hall : forallb (@saturated_within_rounding sample_engine)
                         (map float_of_Z integer_temperatures) = true)
    by (vm_compute; reflexivity).
  rewrite forallb_forall in Hall. apply Hall.
  apply in_map. unfold integer_temperatures.
  replace z with (Z.of_nat (Z.to_nat (z + 40)) - 40)%Z by lia.
  apply (in_map (fun n => (Z.of_nat n - 40)%Z)). apply in_seq. lia.
Qed.

End Dew_point_binary64.

(** ** Dew point in exact arithmetic *)

(** Over the reals the Magnus inversion never exceeds the dry-bulb
    temperature, and returns it at saturation. *)
Lemma calculateDewPoint_exact (T RH : R) :
  (-40 <= T <= 150)%R ->
  (0 < RH <= 100)%R ->
  (calculateDewPoint T RH <= T)%R
  /\ (RH = 100%R -> calculateDewPoint T RH = T).
Proof.
  intros HT HRH. unfold calculateDewPoint.
  cbn [lit add sub mul div Math_log Exact].
  unfold Q2R; cbn [Qnum Qden].
  set (a := (17625 * / 1000)%R). set (b := (24304 * / 100)%R).
  set (tc := ((T - 32 * / 1) * (5 * / 1) / (9 * / 1))%R).
  set (L := ln (RH / (100 * / 1))).
  assert (Ha : (0 < a)%R) by (unfold a; lra).
  assert (Hb : (0 < b)%R) by (unfold b; lra).
  assert (Htc : (0 < b + tc)%R) by (unfold b, tc; lra).
  assert (HTtc : (T = tc * (9 * / 1) / (5 * / 1) + 32 * / 1)%R) by (unfold tc; field).
  assert (HL : (L <= 0)%R).
  { unfold L. rewrite <- ln_1.
    destruct (Req_dec (RH / (100 * / 1)) 1) as [->|Hne]; [lra|].
    left. apply ln_increasing.
    - apply Rdiv_lt_0_compat; lra.
    - assert ((RH / (100 * / 1) <= 1)%R).
      { apply (Rmult_le_reg_r (100 * / 1)%R); [lra|].
        replace (RH / (100 * / 1) * (100 * / 1))%R with RH by (field; lra). lra. }
      lra. }
  split.
  - pose proof (magnus_inverse_bound a b tc L Ha Htc Hb HL) as Hle. lra.
  - intros ->. assert (HL0 : L = 0%R).
    { unfold L. replace (100 / (100 * / 1))%R with 1%R by field. apply ln_1. }
    rewrite HL0. rewrite (magnus_inverse_saturated a b tc Ha Htc Hb). lra.
Qed.


(** * Instances of the theorems on concrete inputs *)

Section Examples.
#[local] Existing Instance sample_engine.

Lemma pass_is_and_of_checks_witness :
  recognized "BUILDING_PRESSURE" = true
  /\ TestReadingSchema "BUILDING_PRESSURE" building_pressure_reading = true
  /\ exists result,
       computeTestResult "BUILDING_PRESSURE" building_pressure_reading None = Return result
       /\ ComputedResult.pass result = all_checks_pass result.
Proof.
  split; [reflexivity|]. split; [reflexivity|].
  apply (pass_is_and_of_checks "BUILDING_PRESSURE" building_pressure_reading None);
    reflexivity.
Defined.

Lemma unknown_test_type_witness :
  computeTestResult "HUMIDITY_RISE" emptyObject None
    = Throw (Error "Unknown test type: HUMIDITY_RISE")
  /\ exists result,
       computeTestResult "BUILDING_PRESSURE" building_pressure_reading None = Return result.
Proof.
  split.
  - apply (unknown_test_type_is_signalled "HUMIDITY_RISE" emptyObject None). reflexivity.
  - apply (unknown_test_type_is_signalled "BUILDING_PRESSURE" building_pressure_reading None).
    reflexivity.
Defined.

Lemma decay_percentage_unguarded_witness :
  startDeltaP decay_from_zero = Some 0%float
  /\ endDeltaP decay_from_zero = Some 0.01%float
  /\ PressureDecaySchema decay_from_zero = true
  /\ exists result,
       computeTestResult "PRESSURE_DECAY" decay_from_zero None = Return result
       /\ get (ComputedResult.calculations result) "decay_percentage"
            = Some (Some neg_infinity).
Proof.
  split; [reflexivity|]. split; [reflexivity|]. split; [reflexivity|].
  destruct (decay_percentage_unguarded decay_from_zero None 0%float 0.01%float
              eq_refl eq_refl) as [result [Hret [Hpct _]]].
  exists result. split; [exact Hret|exact Hpct].
Defined.


Lemma missing_fields_keep_checks_witness :
  TestReadingSchema "AIRFLOW_STATIC" airflow_without_return = true
  /\ returnCFM airflow_without_return = None
  /\ exists result,
       computeTestResult "AIRFLOW_STATIC" airflow_without_return None = Return result
       /\ get (ComputedResult.calculations result) "return_cfm" = Some (Some 0%float)
       /\ keys (ComputedResult.checks result) = ["cfm_per_ton"; "external_static"]%string.
Proof.
  split; [reflexivity|]. split; [reflexivity|].
  destruct (missing_fields_keep_checks "AIRFLOW_STATIC" airflow_without_return None)
    as [Hvalid Hany].
  destruct (Hvalid eq_refl) as [result [Hret [Hcfm _]]].
  exists result. split; [exact Hret|]. split; [exact (Hcfm eq_refl eq_refl)|].
  destruct (Hany result Hret) as [Hkeys _]. injection Hkeys as Hkeys. symmetry. exact Hkeys.
Defined.

(** C7 as stated fails: without [extStatic_inwc], the [external_static]
    entry is still in [checks], marked as failed, and it alone makes the
    overall verdict fail (375 CFM/ton passes). *)
Lemma missing_static_check_not_skipped :
  extStatic_inwc airflow_without_static = None
  /\ exists result,
       computeTestResult "AIRFLOW_STATIC" airflow_without_static None = Return result
       /\ keys (ComputedResult.checks result) = ["cfm_per_ton"; "external_static"]%string
       /\ check_pass result "cfm_per_ton" = Some true
       /\ check_pass result "external_static" = Some false
       /\ ComputedResult.pass result = false.
Proof.
  split; [reflexivity|]. eexists. split; [reflexivity|]. repeat split.
Qed.


End Examples.


(** * Further properties of the engine and of its callers *)

(** ** The order of binary64 values *)

Lemma SFleb_positive (m1 m2 : positive) (e1 e2 : Z) :
  SFleb (S754_finite false m1 e1) (S754_finite false m2 e2) = true
  <-> (e1 < e2)%Z \/ (e1 = e2 /\ (m1 <= m2)%positive).
Proof.
  unfold SFleb, SFcompare.
  change (Pos.compare_cont Eq m1 m2) with (m1 ?= m2)%positive.
  destruct (Z.compare_spec e1 e2) as [He|He|He];
    [destruct (Pos.compare_spec m1 m2) as [Hm|Hm|Hm]| |];
    split; intros H; try reflexivity; try discriminate; lia.
Qed.

Lemma SFleb_negative (m1 m2 : positive) (e1 e2 : Z) :
  SFleb (S754_finite true m1 e1) (S754_finite true m2 e2) = true
  <-> (e2 < e1)%Z \/ (e1 = e2 /\ (m2 <= m1)%positive).
Proof.
  unfold SFleb, SFcompare.
  change (Pos.compare_cont Eq m1 m2) with (m1 ?= m2)%positive.
  destruct (Z.compare_spec e1 e2) as [He|He|He];
    [destruct (Pos.compare_spec m1 m2) as [Hm|Hm|Hm]| |];
    cbn; split; intros H; try reflexivity; try discriminate; lia.
Qed.

(** Reduce a comparison of two float shapes to arithmetic on their fields. *)
Ltac sfleb_hyp H :=
  first [ apply SFleb_positive in H
        | apply SFleb_negative in H
        | discriminate H
        | clear H ].

Lemma SFleb_trans (x y z : spec_float) :
  SFleb x y = true -> SFleb y z = true -> SFleb x z = true.
Proof.
  destruct x as [sx|sx| |sx mx ex], y as [sy|sy| |sy my ey], z as [sz|sz| |sz mz ez];
    try destruct sx; try destruct sy; try destruct sz;
    intros Hxy Hyz;
    try discriminate Hxy; try discriminate Hyz; try reflexivity;
    sfleb_hyp Hxy; sfleb_hyp Hyz;
    first [ apply SFleb_positive; lia | apply SFleb_negative; lia ].
Qed.

Lemma SFcompare_refl (x : spec_float) :
  x <> S754_nan -> SFcompare x x = Some Eq.
Proof.
  destruct x as [s|s| |s m e]; intros Hx; try destruct s; try reflexivity;
    try contradiction; cbn; rewrite Z.compare_refl, Pos.compare_cont_refl; reflexivity.
Qed.

Lemma SFcompare_antisym (x y : spec_float) :
  SFcompare y x = option_map CompOpp (SFcompare x y).
Proof.
  destruct x as [sx|sx| |sx mx ex], y as [sy|sy| |sy my ey];
    try destruct sx; try destruct sy; try reflexivity; cbn;
    rewrite (Z.compare_antisym ex ey);
    destruct (Z.compare ex ey); cbn; try reflexivity;
    pose proof (Pos.compare_cont_antisym mx my Eq) as Hm; cbn in Hm; rewrite <- Hm;
    destruct (Pos.compare_cont Eq mx my); reflexivity.
Qed.

Section Float_order.

Lemma is_nan_spec (x : float) :
  PrimFloat.is_nan x = true <-> Prim2SF x = S754_nan.
Proof.
  unfold PrimFloat.is_nan. rewrite FloatAxioms.eqb_spec. unfold SFeqb.
  split.
  - destruct (Prim2SF x) eqn:Hx; try reflexivity;
      rewrite SFcompare_refl by discriminate; discriminate.
  - intros ->. reflexivity.
Qed.

Lemma not_nan_spec (x : float) :
  PrimFloat.is_nan x = false <-> Prim2SF x <> S754_nan.
Proof.
  rewrite <- is_nan_spec. destruct (PrimFloat.is_nan x); split; congruence.
Qed.

(** A comparison with a NaN operand is false. *)
Lemma leb_not_nan (x y : float) :
  PrimFloat.leb x y = true ->
  PrimFloat.is_nan x = false /\ PrimFloat.is_nan y = false.
Proof.
  rewrite FloatAxioms.leb_spec, !not_nan_spec. unfold SFleb.
  destruct (Prim2SF x), (Prim2SF y); cbn; intros H; split; congruence.
Qed.

Lemma leb_refl (x : float) :
  PrimFloat.is_nan x = false -> PrimFloat.leb x x = true.
Proof.
  rewrite not_nan_spec, FloatAxioms.leb_spec. intros Hx. unfold SFleb.
  now rewrite SFcompare_refl.
Qed.

Lemma leb_trans (x y z : float) :
  PrimFloat.leb x y = true -> PrimFloat.leb y z = true -> PrimFloat.leb x z = true.
Proof. rewrite !FloatAxioms.leb_spec. apply SFleb_trans. Qed.

Lemma ltb_leb (x y : float) :
  PrimFloat.ltb x y = true -> PrimFloat.leb x y = true.
Proof.
  rewrite FloatAxioms.ltb_spec, FloatAxioms.leb_spec. unfold SFltb, SFleb.
  destruct (SFcompare (Prim2SF x) (Prim2SF y)) as [[]|]; congruence.
Qed.

(** On values that are not NaN the order is total. *)
Lemma leb_total (x y : float) :
  PrimFloat.is_nan x = false -> PrimFloat.is_nan y = false ->
  PrimFloat.ltb x y = false -> PrimFloat.leb y x = true.
Proof.
  rewrite !not_nan_spec, FloatAxioms.ltb_spec, FloatAxioms.leb_spec.
  unfold SFltb, SFleb. rewrite (SFcompare_antisym (Prim2SF x) (Prim2SF y)).
  intros Hx Hy.
  destruct (Prim2SF x), (Prim2SF y); try contradiction;
    destruct (SFcompare _ _) as [[]|] eqn:Hc; cbn; try congruence;
    cbn in Hc; try discriminate Hc; try (destruct s; discriminate Hc);
    try (destruct s0; discriminate Hc); try (destruct s, s0; discriminate Hc).
Qed.

End Float_order.

(** ** [Math.min], [Math.max] and [calculateStats] *)

Section Extrema.
Context `{E : JsEngine}.

Lemma is_neg_zero_spec (x : float) :
  is_neg_zero x = true -> Prim2SF x = S754_zero true.
Proof.
  unfold is_neg_zero. rewrite classify_spec. unfold SF64classify, SFclassify.
  destruct (Prim2SF x) as [s|s| |s m e]; try destruct s; try discriminate; try reflexivity;
    destruct (Z.eqb _ _); discriminate.
Qed.

Lemma is_pos_zero_spec (x : float) :
  is_pos_zero x = true -> Prim2SF x = S754_zero false.
Proof.
  unfold is_pos_zero. rewrite classify_spec. unfold SF64classify, SFclassify.
  destruct (Prim2SF x) as [s|s| |s m e]; try destruct s; try discriminate; try reflexivity;
    destruct (Z.eqb _ _); discriminate.
Qed.

(** Only [+Infinity] is at or above [+Infinity], only [-Infinity] at or below
    [-Infinity]. *)
Lemma leb_infinity (x : float) :
  PrimFloat.leb infinity x = true -> x = infinity.
Proof.
  rewrite FloatAxioms.leb_spec. change (Prim2SF infinity) with (S754_infinity false).
  intros H. apply Prim2SF_inj. change (Prim2SF infinity) with (S754_infinity false).
  destruct (Prim2SF x) as [s|s| |s m e]; try destruct s; try discriminate H; reflexivity.
Qed.

Lemma leb_neg_infinity (x : float) :
  PrimFloat.leb x neg_infinity = true -> x = neg_infinity.
Proof.
  rewrite FloatAxioms.leb_spec. change (Prim2SF neg_infinity) with (S754_infinity true).
  intros H. apply Prim2SF_inj. change (Prim2SF neg_infinity) with (S754_infinity true).
  destruct (Prim2SF x) as [s|s| |s m e]; try destruct s; try discriminate H; reflexivity.
Qed.

(** The loop of [Math.min]: on arguments that are not NaN it ends on a value
    at or below the running minimum and every argument, which is the running
    minimum or one of the arguments. *)
Lemma Math_min_from_spec (values : list float) :
  forall lowest : float,
    PrimFloat.is_nan lowest = false ->
    Forall (fun v => PrimFloat.is_nan v = false) values ->
    PrimFloat.is_nan (Math_min_from lowest values) = false
    /\ PrimFloat.leb (Math_min_from lowest values) lowest = true
    /\ Forall (fun v => PrimFloat.leb (Math_min_from lowest values) v = true) values
    /\ (Math_min_from lowest values = lowest \/ In (Math_min_from lowest values) values).
Proof.
  induction values as [|number rest IH]; intros lowest Hlow Hall.
  - cbn. repeat split; [assumption|now apply leb_refl|constructor|now left].
  - inversion Hall as [|? ? Hnum Hrest]; subst. cbn [Math_min_from]. rewrite Hnum.
    set (lowest1 := if is_neg_zero number && is_pos_zero lowest then number else lowest).
    set (lowest2 := if PrimFloat.ltb number lowest1 then number else lowest1).
    assert (H1 : PrimFloat.is_nan lowest1 = false
                 /\ PrimFloat.leb lowest1 lowest = true
                 /\ (lowest1 = number \/ lowest1 = lowest)).
    { unfold lowest1.
      destruct (is_neg_zero number) eqn:Hn; [destruct (is_pos_zero lowest) eqn:Hp|]; cbn.
      - repeat split; [assumption| |now left].
        rewrite FloatAxioms.leb_spec, (is_neg_zero_spec _ Hn), (is_pos_zero_spec _ Hp).
        reflexivity.
      - repeat split; [assumption|now apply leb_refl|now right].
      - repeat split; [assumption|now apply leb_refl|now right]. }
    destruct H1 as [Hnan1 [Hle1 Hin1]].
    assert (H2 : PrimFloat.is_nan lowest2 = false
                 /\ PrimFloat.leb lowest2 lowest1 = true
                 /\ PrimFloat.leb lowest2 number = true
                 /\ (lowest2 = number \/ lowest2 = lowest1)).
    { unfold lowest2. destruct (PrimFloat.ltb number lowest1) eqn:Hlt.
      - repeat split; [assumption|now apply ltb_leb|now apply leb_refl|now left].
      - repeat split; [assumption|now apply leb_refl|now apply leb_total|now right]. }
    destruct H2 as [Hnan2 [Hle2 [Hlen Hin2]]].
    destruct (IH lowest2 Hnan2 Hrest) as [Hr [Hrl [Hrall Hrin]]].
    repeat split.
    + assumption.
    + apply leb_trans with lowest2; [assumption|]. now apply leb_trans with lowest1.
    + constructor; [now apply leb_trans with lowest2|assumption].
    + destruct Hrin as [Hrin|Hrin]; [|right; now right].
      rewrite Hrin. destruct Hin2 as [->| ->]; [right; now left|].
      destruct Hin1 as [->| ->]; [right; now left|now left].
Qed.

(** The loop of [Math.max], symmetrically. *)
Lemma Math_max_from_spec (values : list float) :
  forall highest : float,
    PrimFloat.is_nan highest = false ->
    Forall (fun v => PrimFloat.is_nan v = false) values ->
    PrimFloat.is_nan (Math_max_from highest values) = false
    /\ PrimFloat.leb highest (Math_max_from highest values) = true
    /\ Forall (fun v => PrimFloat.leb v (Math_max_from highest values) = true) values
    /\ (Math_max_from highest values = highest \/ In (Math_max_from highest values) values).
Proof.
  induction values as [|number rest IH]; intros highest Hhigh Hall.
  - cbn. repeat split; [assumption|now apply leb_refl|constructor|now left].
  - inversion Hall as [|? ? Hnum Hrest]; subst. cbn [Math_max_from]. rewrite Hnum.
    set (highest1 := if is_pos_zero number && is_neg_zero highest then number else highest).
    set (highest2 := if PrimFloat.ltb highest1 number then number else highest1).
    assert (H1 : PrimFloat.is_nan highest1 = false
                 /\ PrimFloat.leb highest highest1 = true
                 /\ (highest1 = number \/ highest1 = highest)).
    { unfold highest1.
      destruct (is_pos_zero number) eqn:Hp; [destruct (is_neg_zero highest) eqn:Hn|]; cbn.
      - repeat split; [assumption| |now left].
        rewrite FloatAxioms.leb_spec, (is_neg_zero_spec _ Hn), (is_pos_zero_spec _ Hp).
        reflexivity.
      - repeat split; [assumption|now apply leb_refl|now right].
      - repeat split; [assumption|now apply leb_refl|now right]. }
    destruct H1 as [Hnan1 [Hle1 Hin1]].
    assert (H2 : PrimFloat.is_nan highest2 = false
                 /\ PrimFloat.leb highest1 highest2 = true
                 /\ PrimFloat.leb number highest2 = true
                 /\ (highest2 = number \/ highest2 = highest1)).
    { unfold highest2. destruct (PrimFloat.ltb highest1 number) eqn:Hlt.
      - repeat split; [assumption|now apply ltb_leb|now apply leb_refl|now left].
      - repeat split; [assumption|now apply leb_refl|now apply leb_total|now right]. }
    destruct H2 as [Hnan2 [Hle2 [Hlen Hin2]]].
    destruct (IH highest2 Hnan2 Hrest) as [Hr [Hrl [Hrall Hrin]]].
    repeat split.
    + assumption.
    + apply leb_trans with highest2; [|assumption]. now apply leb_trans with highest1.
    + constructor; [now apply leb_trans with highest2|assumption].
    + destruct Hrin as [Hrin|Hrin]; [|right; now right].
      rewrite Hrin. destruct Hin2 as [->| ->]; [right; now left|].
      destruct Hin1 as [->| ->]; [right; now left|now left].
Qed.

(** A NaN argument makes the loops return NaN. *)
Lemma Math_min_from_nan (values : list float) :
  forall lowest : float,
    Exists (fun v => PrimFloat.is_nan v = true) values ->
    Math_min_from lowest values = nan.
Proof.
  induction values as [|number rest IH]; intros lowest Hex; inversion Hex; subst.
  - cbn. now rewrite H0.
  - cbn. destruct (PrimFloat.is_nan number); [reflexivity|]. now apply IH.
Qed.

Lemma Math_max_from_nan (values : list float) :
  forall highest : float,
    Exists (fun v => PrimFloat.is_nan v = true) values ->
    Math_max_from highest values = nan.
Proof.
  induction values as [|number rest IH]; intros highest Hex; inversion Hex; subst.
  - cbn. now rewrite H0.
  - cbn. destruct (PrimFloat.is_nan number); [reflexivity|]. now apply IH.
Qed.

(** [Math.min] and [Math.max] of a non-empty list without NaN are elements
    of the list that bound every element. *)
Lemma Math_min_spec (values : list float) :
  values <> [] ->
  Forall (fun v => PrimFloat.is_nan v = false) values ->
  In (Math_min values) values
  /\ Forall (fun v => PrimFloat.leb (Math_min values) v = true) values.
Proof.
  intros Hne Hall. unfold Math_min.
  destruct (Math_min_from_spec values infinity eq_refl Hall) as [_ [_ [Hle [Heq|Hin]]]].
  - split; [|assumption]. destruct values as [|v rest]; [contradiction|].
    inversion Hle as [|? ? Hv _]; subst. rewrite Heq in Hv |- *.
    left. now apply leb_infinity.
  - now split.
Qed.

Lemma Math_max_spec (values : list float) :
  values <> [] ->
  Forall (fun v => PrimFloat.is_nan v = false) values ->
  In (Math_max values) values
  /\ Forall (fun v => PrimFloat.leb v (Math_max values) = true) values.
Proof.
  intros Hne Hall. unfold Math_max.
  destruct (Math_max_from_spec values neg_infinity eq_refl Hall) as [_ [_ [Hle [Heq|Hin]]]].
  - split; [|assumption]. destruct values as [|v rest]; [contradiction|].
    inversion Hle as [|? ? Hv _]; subst. rewrite Heq in Hv |- *.
    left. now apply leb_neg_infinity.
  - now split.
Qed.

(** X1: [calculateStats]: for a non-empty array without NaN, [min] and [max]
    are elements of the array, every element lies between them, and
    [min <= max]; a single NaN element turns both into NaN. *)
Theorem calculateStats_min_max (values : list float) :
  values <> [] ->
  (Forall (fun v => PrimFloat.is_nan v = false) values ->
   In (Stats.min (calculateStats values)) values
   /\ In (Stats.max (calculateStats values)) values
   /\ Forall (fun v => PrimFloat.leb (Stats.min (calculateStats values)) v = true
                       /\ PrimFloat.leb v (Stats.max (calculateStats values)) = true) values
   /\ PrimFloat.leb (Stats.min (calculateStats values))
                    (Stats.max (calculateStats values)) = true)
  /\ (Exists (fun v => PrimFloat.is_nan v = true) values ->
      Stats.min (calculateStats values) = nan /\ Stats.max (calculateStats values) = nan).
Proof.
  intros Hne. destruct values as [|v rest]; [contradiction|].
  destruct (calculateStats_nonempty v rest) as [-> [-> _]].
  split.
  - intros Hall.
    destruct (Math_min_spec (v :: rest) Hne Hall) as [Hmin_in Hmin].
    destruct (Math_max_spec (v :: rest) Hne Hall) as [Hmax_in Hmax].
    split; [assumption|]. split; [assumption|]. split.
    + rewrite Forall_forall in *. intros x Hx. split; auto.
    + rewrite Forall_forall in Hmin, Hmax.
      apply leb_trans with v; [apply Hmin|apply Hmax]; now left.
  - intros Hex. split; [now apply Math_min_from_nan|now apply Math_max_from_nan].
Qed.

End Extrema.

(** ** Finite values *)

(** A value between two finite bounds is finite. *)
Lemma bounded_is_finite (lo hi x : float) :
  SFfinite (Prim2SF lo) -> SFfinite (Prim2SF hi) ->
  PrimFloat.leb lo x = true -> PrimFloat.leb x hi = true ->
  SFfinite (Prim2SF x).
Proof.
  rewrite !FloatAxioms.leb_spec. unfold SFleb.
  destruct (Prim2SF lo) as [sl|sl| |sl ml el], (Prim2SF hi) as [sh|sh| |sh mh eh],
           (Prim2SF x) as [s|s| |s m e];
    cbn; try contradiction; try exact (fun _ _ _ _ => I); intros _ _;
    try discriminate; destruct s; try destruct sl; try destruct sh; discriminate.
Qed.

(** The difference of a finite value with itself is [+0]. *)
Lemma float_sub_diag (x : float) :
  SFfinite (Prim2SF x) -> PrimFloat.sub x x = 0%float.
Proof.
  intros Hx. apply Prim2SF_inj. rewrite sub_spec.
  change (Prim2SF 0%float) with (S754_zero false).
  destruct (Prim2SF x) as [s|s| |s m e]; try contradiction.
  - destruct s; reflexivity.
  - unfold SF64sub, SFsub. rewrite Z.sub_diag. reflexivity.
Qed.

Lemma temperature_is_finite (x : float) :
  temperatureSchema (Some x) = true -> SFfinite (Prim2SF x).
Proof.
  unfold temperatureSchema, z_number. intros H. apply andb_prop in H. destruct H as [Hlo Hhi].
  apply (bounded_is_finite (float_lit (-40)) (float_lit 150) x); try assumption; exact I.
Qed.

Lemma humidity_is_finite (x : float) :
  humiditySchema (Some x) = true -> SFfinite (Prim2SF x).
Proof.
  unfold humiditySchema, z_number. intros H. apply andb_prop in H. destruct H as [Hlo Hhi].
  apply (bounded_is_finite (float_lit 0) (float_lit 100) x); try assumption; exact I.
Qed.

Lemma finite_not_nan (x : float) :
  SFfinite (Prim2SF x) -> PrimFloat.is_nan x = false.
Proof.
  intros Hx. apply not_nan_spec. intros Hnan. now rewrite Hnan in Hx.
Qed.

Section Single_sample.
Context `{E : JsEngine}.

Lemma Math_min_singleton (x : float) :
  PrimFloat.is_nan x = false -> Math_min [x] = x.
Proof.
  intros Hx.
  destruct (Math_min_spec [x] ltac:(discriminate) (Forall_cons x Hx (Forall_nil _)))
    as [[Heq|[]] _].
  now symmetry.
Qed.

Lemma Math_max_singleton (x : float) :
  PrimFloat.is_nan x = false -> Math_max [x] = x.
Proof.
  intros Hx.
  destruct (Math_max_spec [x] ltac:(discriminate) (Forall_cons x Hx (Forall_nil _)))
    as [[Heq|[]] _].
  now symmetry.
Qed.

(** X2: [computeDistributionMixing]: a grid of a single sample with a valid
    temperature and humidity always passes, with both spreads equal to 0. *)
Theorem single_sample_grid_passes (data : Reading) (weatherData : option WeatherData)
    (sample : GridSample) :
  gridSamples data = Some [sample] ->
  temperatureSchema (Some (db_F sample)) = true ->
  humiditySchema (Some (rh_pct sample)) = true ->
  exists result,
    computeTestResult "DISTRIBUTION_MIXING" data weatherData = Return result
    /\ get (ComputedResult.calculations result) "temp_variation_F" = Some (Some 0%float)
    /\ get (ComputedResult.calculations result) "rh_variation_pct" = Some (Some 0%float)
    /\ ComputedResult.pass result = true.
Proof.
  intros Hgrid Ht Hrh.
  apply temperature_is_finite in Ht. apply humidity_is_finite in Hrh.
  assert (Hts : (Math_max [db_F sample] - Math_min [db_F sample])%float = 0%float).
  { rewrite Math_max_singleton, Math_min_singleton by now apply finite_not_nan.
    now apply float_sub_diag. }
  assert (Hrs : (Math_max [rh_pct sample] - Math_min [rh_pct sample])%float = 0%float).
  { rewrite Math_max_singleton, Math_min_singleton by now apply finite_not_nan.
    now apply float_sub_diag. }
  eexists. split.
  { change (computeTestResult "DISTRIBUTION_MIXING" data weatherData)
      with (computeDistributionMixing data).
    unfold computeDistributionMixing. rewrite Hgrid. reflexivity. }
  cbn [map].
  split; [|split].
  - change (Some (Some (Math_max [db_F sample] - Math_min [db_F sample])%float)
            = Some (Some 0%float)). now rewrite Hts.
  - change (Some (Some (Math_max [rh_pct sample] - Math_min [rh_pct sample])%float)
            = Some (Some 0%float)). now rewrite Hrs.
  - change (PrimFloat.leb (Math_max [db_F sample] - Math_min [db_F sample]) 5
            && PrimFloat.leb (Math_max [rh_pct sample] - Math_min [rh_pct sample]) 10
            = true)%float.
    rewrite Hts, Hrs. reflexivity.
Qed.

End Single_sample.

(** ** Economizer effectiveness *)

(** X3: [calculateEconomizerEffectiveness]: equal return and outside
    temperatures give 100; otherwise the result is NaN exactly when the raw
    ratio is NaN, and else lies within 0..100. *)
Theorem economizer_effectiveness_clamped (mixedAirTemp returnAirTemp outsideAirTemp : float) :
  let raw :=
    ((returnAirTemp - mixedAirTemp) / (returnAirTemp - outsideAirTemp) * 100)%float in
  let result := calculateEconomizerEffectiveness mixedAirTemp returnAirTemp outsideAirTemp in
  (PrimFloat.eqb returnAirTemp outsideAirTemp = true -> result = 100%float)
  /\ (PrimFloat.eqb returnAirTemp outsideAirTemp = false ->
      if PrimFloat.is_nan raw then result = nan
      else PrimFloat.leb 0 result = true /\ PrimFloat.leb result 100 = true).
Proof.
  intros raw result. unfold result, calculateEconomizerEffectiveness. fold raw.
  split; intros Heq; rewrite Heq; [reflexivity|].
  destruct (PrimFloat.is_nan raw) eqn:Hraw.
  - assert (Hmin : Math_min [100%float; raw] = nan).
    { apply Math_min_from_nan. right. now left. }
    rewrite Hmin. reflexivity.
  - assert (Hall : Forall (fun v => PrimFloat.is_nan v = false) [100%float; raw])
      by (repeat constructor; assumption).
    destruct (Math_min_spec [100%float; raw] ltac:(discriminate) Hall) as [Hin Hle].
    set (clamped := Math_min [100%float; raw]) in *.
    assert (Hnan : PrimFloat.is_nan clamped = false).
    { destruct Hin as [<-|[<-|[]]]; [reflexivity|assumption]. }
    assert (Hle100 : PrimFloat.leb clamped 100 = true) by now inversion Hle.
    assert (Hall' : Forall (fun v => PrimFloat.is_nan v = false) [0%float; clamped])
      by (repeat constructor; assumption).
    destruct (Math_max_spec [0%float; clamped] ltac:(discriminate) Hall') as [Hin' Hge].
    split; [now inversion Hge|].
    destruct Hin' as [<-|[<-|[]]]; [reflexivity|assumption].
Qed.

(** ** Edge behaviour of the routines *)

Section Routine_edges.
Context `{E : JsEngine}.

(** X4: [computeTestResult]: the weather context reaches the refrigerant circuit
    only, and its relative humidity reaches nothing; an absent context and a
    context without temperature are treated alike. *)
Theorem weather_only_reaches_refrigerant_circuit (testType : string) (reading : Reading)
    (weather1 weather2 : option WeatherData) (temperature rh1 rh2 : option float) :
  (String.eqb testType "REFRIGERANT_CIRCUIT" = false ->
   computeTestResult testType reading weather1 = computeTestResult testType reading weather2)
  /\ computeTestResult testType reading
       (Some {| outdoorTemp := temperature; outdoorRH := rh1 |})
     = computeTestResult testType reading
         (Some {| outdoorTemp := temperature; outdoorRH := rh2 |})
  /\ computeTestResult testType reading None
     = computeTestResult testType reading (Some {| outdoorTemp := None; outdoorRH := rh1 |}).
Proof.
  unfold computeTestResult. repeat split.
  - intros Hne. rewrite Hne. reflexivity.
Qed.

(** X5: [computePressureDecay]: a reading whose duration is zero passes whatever
    its pressures are, with a decay rate of 0. *)
Theorem zero_duration_decay_passes (data : Reading) (weatherData : option WeatherData)
    (seconds : float) :
  decaySeconds data = Some seconds ->
  PrimFloat.eqb seconds 0%float = true ->
  exists result,
    computeTestResult "PRESSURE_DECAY" data weatherData = Return result
    /\ get (ComputedResult.calculations result) "decay_rate_per_min" = Some (Some 0%float)
    /\ check_pass result "decay_rate" = Some true
    /\ ComputedResult.pass result = true.
Proof.
  intros Hd Hz. eexists. split; [reflexivity|].
  unfold check_pass, computePressureDecay, calculatePressureDecayRate.
  cbn [ComputedResult.calculations ComputedResult.checks ComputedResult.pass get option_map
       String.eqb Ascii.eqb Bool.eqb CheckResult.pass strict_eq lit Binary64].
  rewrite Hd. cbn [ToNumber]. eval_literals. rewrite Hz. repeat split.
Qed.

(** X6: [computeEconomizerSeal]: the summary follows the leakage observation
    alone, so a damper commanded above 5% without observed leakage fails
    with the summary of a passed test. *)
Theorem economizer_summary_ignores_damper (data : Reading) (weatherData : option WeatherData) :
  js_not (leakageObserved data) = true ->
  PrimFloat.leb (ToNumber (commandedPct data)) 5%float = false ->
  exists result,
    computeTestResult "ECONOMIZER_SEAL" data weatherData = Return result
    /\ check_pass result "damper_position" = Some false
    /\ ComputedResult.pass result = false
    /\ ComputedResult.summary result = "Economizer seal test passed"%string.
Proof.
  intros Hleak Hpos. eexists. split; [reflexivity|].
  unfold check_pass, computeEconomizerSeal.
  cbn [ComputedResult.checks ComputedResult.pass ComputedResult.summary get option_map
       String.eqb Ascii.eqb Bool.eqb CheckResult.pass le lit Binary64].
  eval_literals. rewrite Hleak, Hpos. repeat split.
Qed.

(** X7: [computeReturnCurbLeakage], [computeEconomizerSeal]: an absent leak flag
    counts as no leak: the leak check passes and reports NONE. *)
Theorem absent_leak_flag_passes (data : Reading) (weatherData : option WeatherData) :
  (smokeLeaksFound data = None ->
   exists result,
     computeTestResult "RETURN_CURB_LEAKAGE" data weatherData = Return result
     /\ option_map (fun c => (CheckResult.pass c, CheckResult.value c))
                   (get (ComputedResult.checks result) "smoke_leaks")
        = Some (true, JsString "NONE"))
  /\ (leakageObserved data = None ->
      exists result,
        computeTestResult "ECONOMIZER_SEAL" data weatherData = Return result
        /\ option_map (fun c => (CheckResult.pass c, CheckResult.value c))
                      (get (ComputedResult.checks result) "leakage_test")
           = Some (true, JsString "NONE")).
Proof.
  split; intros Habsent; eexists; (split; [reflexivity|]).
  - unfold computeReturnCurbLeakage. cbn. rewrite Habsent. reflexivity.
  - unfold computeEconomizerSeal. cbn. rewrite Habsent. reflexivity.
Qed.

(** X8: [checkBuildingPressure], [computeAirflowStatic]: a measurement that is
    absent is compared as NaN, fails, and is diagnosed as too high. *)
Theorem absent_measurement_reported_too_high (data : Reading)
    (weatherData : option WeatherData) :
  (deltaP_inwc data = None ->
   exists result,
     computeTestResult "BUILDING_PRESSURE" data weatherData = Return result
     /\ ComputedResult.pass result = false
     /\ ComputedResult.summary result
        = "Building pressure too high - over pressurized"%string)
  /\ (extStatic_inwc data = None ->
      exists result,
        computeTestResult "AIRFLOW_STATIC" data weatherData = Return result
        /\ ComputedResult.pass result = false
        /\ option_map CheckResult.message
                      (get (ComputedResult.checks result) "external_static")
           = Some "External static pressure too high - check for restrictions"%string).
Proof.
  split; intros Habsent; eexists; (split; [reflexivity|]).
  - unfold computeBuildingPressure, checkBuildingPressure. cbn. rewrite Habsent. split; reflexivity.
  - unfold computeAirflowStatic. cbn. rewrite Habsent. cbn.
    rewrite andb_false_r. split; reflexivity.
Qed.

End Routine_edges.

(** ** Storing and counting verdicts *)

Section Stored_verdicts.
Context `{E : JsEngine}.

Lemma CreateTestResultSchema_recognized (testType : string) :
  CreateTestResultSchema testType = recognized testType.
Proof. reflexivity. Qed.

(** For a test type of the enumeration, the computation throws exactly when
    the reading lacks the field its routine calls a method on. *)
Lemma computeTestResult_outcome (testType : string) (reading : Reading)
    (weatherData : option WeatherData) :
  recognized testType = true ->
  match computeTestResult testType reading weatherData with
  | Return _ => lacks_required_field testType reading = false
  | Throw e => e = TypeError /\ lacks_required_field testType reading = true
  end.
Proof.
  intros H. unfold lacks_required_field.
  each_test_type H; cbn; try reflexivity.
  - unfold computeSlabWallMoisture.
    destruct (plasticTest reading) as [s|]; [destruct (String.eqb s "DRY")|];
      try reflexivity. now split.
  - unfold computeDistributionMixing.
    destruct (gridSamples reading); [reflexivity|now split].
Qed.


(** The verdict stored by [POST], as a function of the submission. *)
Lemma POST_shape (testType : string) (reading : Reading) (session : SessionRecord) :
  match POST testType reading session with
  | status400 => CreateTestResultSchema testType = false
  | status201 testResult =>
      CreateTestResultSchema testType = true
      /\ lacks_required_field testType reading
         = match TestResult.pass testResult with None => true | Some _ => false end
  end.
Proof.
  unfold POST.
  destruct (CreateTestResultSchema testType) eqn:Hknown; [|reflexivity].
  set (weatherData := Some _).
  pose proof (computeTestResult_outcome testType reading weatherData Hknown) as Hout.
  destruct (computeTestResult testType reading weatherData) as [computation|e]; cbn.
  - now split.
  - split; [reflexivity|apply Hout].
Qed.

End Stored_verdicts.

(** The three counters, from given starting values. *)
Lemma passFailStats_from (tests : list TestResult.t) :
  forall acc : PassFailStats.t,
    let stats := fold_left passFailStats_step tests acc in
    PassFailStats.pass stats
      = (PassFailStats.pass acc + List.length (filter (has_verdict (Some true)) tests))%nat
    /\ PassFailStats.fail stats
      = (PassFailStats.fail acc + List.length (filter (has_verdict (Some false)) tests))%nat
    /\ PassFailStats.pending stats
      = (PassFailStats.pending acc + List.length (filter (has_verdict None) tests))%nat.
Proof.
  induction tests as [|test rest IH]; intros acc; cbn zeta.
  - cbn. repeat split; lia.
  - cbn [fold_left filter]. specialize (IH (passFailStats_step acc test)).
    cbn zeta in IH. destruct IH as [Hp [Hf Hn]]. rewrite Hp, Hf, Hn.
    unfold passFailStats_step, has_verdict.
    destruct (TestResult.pass test) as [[|]|]; cbn; repeat split;
      rewrite ?Nat.add_succ_r; reflexivity.
Qed.

(** Every test has exactly one of the three verdicts. *)
Lemma verdicts_partition (tests : list TestResult.t) :
  (List.length (filter (has_verdict (Some true)) tests)
   + List.length (filter (has_verdict (Some false)) tests)
   + List.length (filter (has_verdict None) tests))%nat
  = List.length tests.
Proof.
  induction tests as [|test rest IH]; [reflexivity|].
  cbn [filter].
  assert (Hv : forall v, has_verdict v test
                         = match TestResult.pass test, v with
                           | Some true, Some true | Some false, Some false | None, None => true
                           | _, _ => false
                           end) by reflexivity.
  rewrite !Hv. destruct (TestResult.pass test) as [[|]|]; cbn [List.length]; lia.
Qed.

(** The counters of [passFailStats], started from zero. *)
Lemma passFailStats_filters (tests : list TestResult.t) :
  PassFailStats.pass (passFailStats tests)
  = List.length (filter (has_verdict (Some true)) tests)
  /\ PassFailStats.fail (passFailStats tests)
     = List.length (filter (has_verdict (Some false)) tests)
  /\ PassFailStats.pending (passFailStats tests)
     = List.length (filter (has_verdict None) tests).
Proof.
  unfold passFailStats.
  destruct (passFailStats_from tests
              {| PassFailStats.pass := 0%nat; PassFailStats.fail := 0%nat;
                 PassFailStats.pending := 0%nat |}) as [Hp [Hf Hn]].
  cbn zeta in *. rewrite Hp, Hf, Hn. repeat split.
Qed.

(** X10: [passFailStats]: the counters are the numbers of tests whose stored
    [pass] is [true], [false] and [null], and they add up to the number of
    tests. *)
Theorem passFailStats_counts (tests : list TestResult.t) :
  let stats := passFailStats tests in
  PassFailStats.pass stats = List.length (filter (has_verdict (Some true)) tests)
  /\ PassFailStats.fail stats = List.length (filter (has_verdict (Some false)) tests)
  /\ PassFailStats.pending stats = List.length (filter (has_verdict None) tests)
  /\ (PassFailStats.pass stats + PassFailStats.fail stats + PassFailStats.pending stats)%nat
     = List.length tests.
Proof.
  cbv zeta. destruct (passFailStats_filters tests) as [Hp [Hf Hn]].
  rewrite Hp, Hf, Hn. repeat split. apply verdicts_partition.
Qed.

Section Report_of_submissions.
Context `{E : JsEngine}.

(** The row stored for one submission, by its verdict. *)
Lemma stored_one (v : option bool) (s : Submission) :
  forall rest : list Submission,
    List.length (filter (has_verdict v) (stored (s :: rest)))
    = (List.length (filter (has_verdict v) (stored [s]))
       + List.length (filter (has_verdict v) (stored rest)))%nat.
Proof.
  intros rest. unfold stored. cbn [flat_map]. rewrite app_nil_r.
  now rewrite filter_app, length_app.
Qed.

(** The verdict of the row stored for one submission. *)
Lemma stored_verdict (s : Submission) :
  List.length (filter (has_verdict None) (stored [s])) = (if uncomputable s then 1 else 0)%nat
  /\ (List.length (filter (has_verdict (Some true)) (stored [s]))
      + List.length (filter (has_verdict (Some false)) (stored [s])))%nat
     = (if computable s then 1 else 0)%nat.
Proof.
  destruct s as [[testType reading] session].
  unfold stored, uncomputable, computable. cbn [flat_map fst snd]. rewrite app_nil_r.
  pose proof (POST_shape testType reading session) as Hshape.
  destruct (POST testType reading session) as [|testResult].
  - rewrite Hshape. split; reflexivity.
  - destruct Hshape as [-> Hshape].
    assert (Hv : forall v, has_verdict v testResult
                           = match TestResult.pass testResult, v with
                             | Some true, Some true | Some false, Some false
                             | None, None => true
                             | _, _ => false
                             end) by reflexivity.
    cbn [filter]. rewrite !Hv.
    destruct (TestResult.pass testResult) as [[|]|]; rewrite Hshape; split; reflexivity.
Qed.


End Report_of_submissions.

(** ** Counting tests by type *)

Lemma get_assign_same {A : Type} (o : list (string * A)) (k : string) (v : A) :
  get (assign o k v) k = Some v.
Proof.
  induction o as [|[k' v'] o' IH]; cbn.
  - now rewrite String.eqb_refl.
  - destruct (String.eqb k' k) eqn:Hk; cbn; rewrite Hk; [reflexivity|assumption].
Qed.

Lemma get_assign_other {A : Type} (o : list (string * A)) (k k' : string) (v : A) :
  String.eqb k k' = false -> get (assign o k v) k' = get o k'.
Proof.
  intros Hne. induction o as [|[k0 v0] o' IH]; cbn.
  - now rewrite Hne.
  - destruct (String.eqb k0 k) eqn:Hk; cbn.
    + apply String.eqb_eq in Hk. subst k0. now rewrite Hne.
    + now rewrite IH.
Qed.

Lemma total_assign (o : list (string * nat)) (k : string) (v : nat) :
  (total (assign o k v) + match get o k with Some n => n | None => 0 end
   = total o + v)%nat.
Proof.
  unfold total, list_sum. induction o as [|[k' v'] o' IH]; cbn.
  - lia.
  - destruct (String.eqb k' k); cbn; lia.
Qed.

Lemma positive_assign (o : list (string * nat)) (k : string) (v : nat) :
  (0 < v)%nat ->
  Forall (fun entry => (0 < snd entry)%nat) o ->
  Forall (fun entry => (0 < snd entry)%nat) (assign o k v).
Proof.
  intros Hv. induction o as [|[k' v'] o' IH]; cbn; intros Hall.
  - now repeat constructor.
  - inversion Hall; subst. destruct (String.eqb k' k); constructor; auto.
Qed.

Lemma get_positive (o : list (string * nat)) (k : string) (n : nat) :
  Forall (fun entry => (0 < snd entry)%nat) o -> get o k = Some n -> (0 < n)%nat.
Proof.
  induction o as [|[k' v'] o' IH]; cbn; intros Hall Hget; [discriminate|].
  inversion Hall; subst. destruct (String.eqb k' k); [now injection Hget as <-|auto].
Qed.

(** The reduction from a given object of positive counters. *)
Lemma testsByType_from (tests : list TestResult.t) :
  forall acc : list (string * nat),
    Forall (fun entry => (0 < snd entry)%nat) acc ->
    let counted := fold_left testsByType_step tests acc in
    Forall (fun entry => (0 < snd entry)%nat) counted
    /\ (total counted = total acc + List.length tests)%nat
    /\ forall testType,
         (match get counted testType with Some n => n | None => 0 end
          = match get acc testType with Some n => n | None => 0 end
            + count_of_type testType tests)%nat.
Proof.
  induction tests as [|test rest IH]; intros acc Hacc; cbn zeta.
  - unfold count_of_type. cbn [fold_left filter List.length]. repeat split; [assumption|lia|intros; lia].
  - cbn [fold_left].
    set (k := TestResult.testType test).
    assert (Hcount : (match get acc k with
                      | Some n => if Nat.eqb n 0 then 0 else n
                      | None => 0
                      end = match get acc k with Some n => n | None => 0 end)%nat).
    { destruct (get acc k) as [[|n]|]; reflexivity. }
    assert (Hstep : testsByType_step acc test
                    = assign acc k (match get acc k with Some n => n | None => 0 end + 1)%nat).
    { unfold testsByType_step. fold k. now rewrite Hcount. }
    rewrite Hstep.
    set (c := match get acc k with Some n => n | None => 0%nat end) in *.
    destruct (IH (assign acc k (c + 1)%nat)) as [Hpos [Htotal Hget]].
    { apply positive_assign; [lia|assumption]. }
    cbn zeta in *. split; [assumption|]. split.
    + rewrite Htotal. pose proof (total_assign acc k (c + 1)) as Ht. fold c in Ht.
      cbn [List.length]. lia.
    + intros testType. rewrite Hget. unfold count_of_type. cbn [filter]. fold k.
      destruct (String.eqb k testType) eqn:Hk.
      * apply String.eqb_eq in Hk. subst testType.
        rewrite get_assign_same. fold c. cbn [List.length]. lia.
      * rewrite get_assign_other by assumption. lia.
Qed.

(** X12: [testsByType]: for tests whose type is of the enumeration, the counter
    stored under a test type is the number of tests of that type, a type
    without test has no entry, and the counters add up to the number of
    tests. *)
Theorem testsByType_counts (tests : list TestResult.t) (testType : string) :
  Forall (fun test => recognized (TestResult.testType test) = true) tests ->
  get (testsByType tests) testType
    = (if Nat.eqb (count_of_type testType tests) 0 then None
       else Some (count_of_type testType tests))
  /\ total (testsByType tests) = List.length tests.
Proof.
  intros _.
  destruct (testsByType_from tests [] (Forall_nil _)) as [Hpos [Htotal Hget]].
  cbn zeta in *. fold (testsByType tests) in *. split; [|exact Htotal].
  specialize (Hget testType). cbn [get] in Hget. rewrite Nat.add_0_l in Hget.
  destruct (get (testsByType tests) testType) as [n|] eqn:Hn.
  - pose proof (get_positive _ _ _ Hpos Hn) as Hn0.
    rewrite <- Hget. destruct n; [lia|reflexivity].
  - now rewrite <- Hget.
Qed.

(** ** The previews of the forms against the stored result *)

Section Previews.
Context `{E : JsEngine}.

(** X13: [handlePressureChange]: a preview is shown for a positive pressure only,
    and it is then the result the engine computes for the submitted reading. *)
Theorem building_pressure_preview_agrees (data : Reading) (pressure : float) :
  deltaP_inwc data = Some pressure ->
  handlePressureChange pressure
  = if PrimFloat.ltb 0 pressure then Some (computeBuildingPressure data) else None.
Proof.
  intros Hp. unfold handlePressureChange, computeBuildingPressure, gt.
  cbn [lt lit Binary64]. eval_literals. rewrite Hp. reflexivity.
Qed.

(** X14: [AirflowStaticForm]: a preview is shown when the supply CFM and the
    tons are positive; its checks and verdict are those of the engine for
    the submitted reading, while its calculations lack [return_cfm]. *)
Theorem airflow_preview_agrees (data : Reading) (cfm capacity static : float) :
  supplyCFM data = Some cfm ->
  tons data = Some capacity ->
  extStatic_inwc data = Some static ->
  match AirflowStaticForm_computed cfm capacity static with
  | Some preview =>
      PrimFloat.ltb 0 cfm && PrimFloat.ltb 0 capacity = true
      /\ ComputedResult.checks preview = ComputedResult.checks (computeAirflowStatic data)
      /\ ComputedResult.pass preview = ComputedResult.pass (computeAirflowStatic data)
      /\ keys (ComputedResult.calculations preview)
         = ["cfm_per_ton"; "supply_cfm"; "external_static_inwc"]%string
      /\ keys (ComputedResult.calculations (computeAirflowStatic data))
         = ["cfm_per_ton"; "supply_cfm"; "return_cfm"; "external_static_inwc"]%string
  | None => PrimFloat.ltb 0 cfm && PrimFloat.ltb 0 capacity = false
  end.
Proof.
  intros Hcfm Htons Hstatic. unfold AirflowStaticForm_computed, computeAirflowStatic, gt.
  cbn [lt lit Binary64]. eval_literals. rewrite Hcfm, Htons, Hstatic.
  destruct (PrimFloat.ltb 0 cfm && PrimFloat.ltb 0 capacity); [|reflexivity].
  repeat split.
Qed.

(** X15: [CoilPerformanceForm]: the preview has the two checks of the engine and
    a third, [humidity_performance], that the engine does not have; its
    verdict is the verdict of the engine AND that third check. *)
Theorem coil_preview_is_stricter (data : Reading) (rdb rrh sdb srh : float) :
  returnDB_F data = Some rdb ->
  returnRH_pct data = Some rrh ->
  supplyDB_F data = Some sdb ->
  supplyRH_pct data = Some srh ->
  match CoilPerformanceForm_computed rdb rrh sdb srh (condensateVolume_oz_per_30min data) with
  | Some preview =>
      firstn 2 (ComputedResult.checks preview)
        = ComputedResult.checks (computeCoilPerformance data)
      /\ keys (ComputedResult.checks preview)
         = ["supply_dew_point"; "temperature_drop"; "humidity_performance"]%string
      /\ ComputedResult.pass preview
         = ComputedResult.pass (computeCoilPerformance data)
           && within (10, 40)%float (srh - rrh)%float
  | None =>
      PrimFloat.ltb 0 rdb && PrimFloat.ltb 0 rrh && PrimFloat.ltb 0 sdb && PrimFloat.ltb 0 srh
      = false
  end.
Proof.
  intros Hrdb Hrrh Hsdb Hsrh. unfold CoilPerformanceForm_computed, computeCoilPerformance, gt.
  cbn [lt lit Binary64]. eval_literals. rewrite Hrdb, Hrrh, Hsdb, Hsrh.
  destruct (PrimFloat.ltb 0 rdb && PrimFloat.ltb 0 rrh && PrimFloat.ltb 0 sdb
            && PrimFloat.ltb 0 srh); [|reflexivity].
  repeat split.
Qed.

(** The default of the form's outdoor field makes the engine's choice
    between session and reading immaterial. *)
Lemma outdoor_default_is_chosen (session : option float) :
  js_or session (RefrigerantCircuitForm_outdoorTemp session)
  = RefrigerantCircuitForm_outdoorTemp session.
Proof.
  unfold RefrigerantCircuitForm_outdoorTemp, js_or.
  destruct (ToBoolean session); reflexivity.
Qed.


End Previews.

(** ** The saturation curve and the dew point in exact arithmetic *)


Lemma Rdiv_le_cross (x1 d1 x2 d2 : R) :
  (0 < d1 -> 0 < d2 -> x1 * d2 <= x2 * d1 -> x1 / d1 <= x2 / d2)%R.
Proof.
  intros Hd1 Hd2 Hx.
  apply (Rmult_le_reg_r (d1 * d2)%R); [now apply Rmult_lt_0_compat|].
  replace (x1 / d1 * (d1 * d2))%R with (x1 * d2)%R by (field; lra).
  replace (x2 / d2 * (d1 * d2))%R with (x2 * d1)%R by (field; lra).
  exact Hx.
Qed.

(** The Magnus inversion is monotone in the temperature and in the humidity
    term, as long as the latter is not positive. *)
Lemma magnus_inverse_monotone (a b tc1 tc2 L1 L2 : R) :
  (0 < a -> 0 < b -> 0 < b + tc1 -> tc1 <= tc2 -> L1 <= L2 -> L2 <= 0 ->
   b * (L1 + a * tc1 / (b + tc1)) / (a - (L1 + a * tc1 / (b + tc1)))
   <= b * (L2 + a * tc2 / (b + tc2)) / (a - (L2 + a * tc2 / (b + tc2))))%R.
Proof.
  intros Ha Hb Hbt1 Htc HL HL2.
  assert (Hbt2 : (0 < b + tc2)%R) by lra.
  assert (Hg : (a * tc1 / (b + tc1) <= a * tc2 / (b + tc2))%R).
  { apply Rdiv_le_cross; try assumption.
    assert (Hab : (0 <= a * b * (tc2 - tc1))%R).
    { apply Rmult_le_pos; [apply Rmult_le_pos|]; lra. }
    nra. }
  assert (Hlt1 : (a - a * tc1 / (b + tc1) = a * b / (b + tc1))%R) by (field; lra).
  assert (Hlt2 : (a - a * tc2 / (b + tc2) = a * b / (b + tc2))%R) by (field; lra).
  assert (Hp1 : (0 < a * b / (b + tc1))%R).
  { apply Rdiv_lt_0_compat; [apply Rmult_lt_0_compat|]; assumption. }
  assert (Hp2 : (0 < a * b / (b + tc2))%R).
  { apply Rdiv_lt_0_compat; [apply Rmult_lt_0_compat|]; assumption. }
  set (g1 := (a * tc1 / (b + tc1))%R) in *. set (g2 := (a * tc2 / (b + tc2))%R) in *.
  apply Rdiv_le_cross; [lra|lra|].
  assert (Hab : (0 <= a * b * ((L2 + g2) - (L1 + g1)))%R).
  { apply Rmult_le_pos; [apply Rmult_le_pos|]; lra. }
  nra.
Qed.


(** ** Exceptions of the dispatcher *)

Section Exceptions.
Context `{E : JsEngine}.


End Exceptions.

(** * Instances of the further properties on concrete inputs *)

Section Further_examples.
#[local] Existing Instance sample_engine.

Lemma calculateStats_min_max_witness :
  [70; 72; 74; 76]%float <> []
  /\ In (Stats.min (calculateStats [70; 72; 74; 76]%float)) [70; 72; 74; 76]%float
  /\ PrimFloat.leb (Stats.min (calculateStats [70; 72; 74; 76]%float))
                   (Stats.max (calculateStats [70; 72; 74; 76]%float)) = true.
Proof.
  assert (Hne : [70; 72; 74; 76]%float <> []) by discriminate.
  split; [exact Hne|].
  destruct (calculateStats_min_max [70; 72; 74; 76]%float Hne) as [Hbounds _].
  destruct Hbounds as [Hmin [_ [_ Hle]]]; [repeat constructor|].
  split; [exact Hmin|exact Hle].
Defined.

Lemma single_sample_grid_passes_witness :
  gridSamples single_sample_reading = Some [mkGridSample 72%float 50%float]
  /\ temperatureSchema (Some 72%float) = true
  /\ humiditySchema (Some 50%float) = true
  /\ exists result,
       computeTestResult "DISTRIBUTION_MIXING" single_sample_reading None = Return result
       /\ ComputedResult.pass result = true.
Proof.
  split; [reflexivity|]. split; [reflexivity|]. split; [reflexivity|].
  destruct (single_sample_grid_passes single_sample_reading None
              (mkGridSample 72%float 50%float) eq_refl eq_refl eq_refl)
    as [result [Hret [_ [_ Hpass]]]].
  exists result. split; [exact Hret|exact Hpass].
Defined.

Lemma economizer_effectiveness_clamped_witness :
  PrimFloat.eqb 75%float 95%float = false
  /\ PrimFloat.is_nan ((75 - 60) / (75 - 95) * 100)%float = false
  /\ PrimFloat.leb 0 (calculateEconomizerEffectiveness 60 75 95) = true
  /\ PrimFloat.leb (calculateEconomizerEffectiveness 60 75 95) 100 = true.
Proof.
  split; [reflexivity|]. split; [reflexivity|].
  exact (proj2 (economizer_effectiveness_clamped 60 75 95) eq_refl).
Defined.

Lemma zero_duration_decay_passes_witness :
  decaySeconds zero_duration_reading = Some 0%float
  /\ PrimFloat.eqb 0%float 0%float = true
  /\ PressureDecaySchema zero_duration_reading = true
  /\ exists result,
       computeTestResult "PRESSURE_DECAY" zero_duration_reading None = Return result
       /\ ComputedResult.pass result = true.
Proof.
  split; [reflexivity|]. split; [reflexivity|]. split; [reflexivity|].
  destruct (zero_duration_decay_passes zero_duration_reading None 0%float eq_refl eq_refl)
    as [result [Hret [_ [_ Hpass]]]].
  exists result. split; [exact Hret|exact Hpass].
Defined.

Lemma economizer_summary_ignores_damper_witness :
  js_not (leakageObserved open_damper_reading) = true
  /\ PrimFloat.leb (ToNumber (commandedPct open_damper_reading)) 5%float = false
  /\ EconomizerSealSchema open_damper_reading = true
  /\ exists result,
       computeTestResult "ECONOMIZER_SEAL" open_damper_reading None = Return result
       /\ ComputedResult.pass result = false
       /\ ComputedResult.summary result = "Economizer seal test passed"%string.
Proof.
  split; [reflexivity|]. split; [reflexivity|]. split; [reflexivity|].
  destruct (economizer_summary_ignores_damper open_damper_reading None eq_refl eq_refl)
    as [result [Hret [_ [Hpass Hsummary]]]].
  exists result. split; [exact Hret|]. split; [exact Hpass|exact Hsummary].
Defined.

Lemma absent_leak_flag_passes_witness :
  smokeLeaksFound emptyObject = None
  /\ exists result,
       computeTestResult "RETURN_CURB_LEAKAGE" emptyObject None = Return result
       /\ option_map (fun c => (CheckResult.pass c, CheckResult.value c))
                     (get (ComputedResult.checks result) "smoke_leaks")
          = Some (true, JsString "NONE").
Proof.
  split; [reflexivity|].
  exact (proj1 (absent_leak_flag_passes emptyObject None) eq_refl).
Defined.

Lemma absent_measurement_reported_too_high_witness :
  deltaP_inwc emptyObject = None
  /\ exists result,
       computeTestResult "BUILDING_PRESSURE" emptyObject None = Return result
       /\ ComputedResult.pass result = false
       /\ ComputedResult.summary result
          = "Building pressure too high - over pressurized"%string.
Proof.
  split; [reflexivity|].
  exact (proj1 (absent_measurement_reported_too_high emptyObject None) eq_refl).
Defined.

Lemma weather_only_reaches_refrigerant_circuit_witness :
  String.eqb "COIL_PERFORMANCE" "REFRIGERANT_CIRCUIT" = false
  /\ computeTestResult "COIL_PERFORMANCE" coil_reading None
     = computeTestResult "COIL_PERFORMANCE" coil_reading freezing_session.
Proof.
  split; [reflexivity|].
  exact (proj1 (weather_only_reaches_refrigerant_circuit
                  "COIL_PERFORMANCE" coil_reading None freezing_session None None None)
               eq_refl).
Defined.


Lemma building_pressure_preview_agrees_witness :
  deltaP_inwc building_pressure_reading = Some 0.035%float
  /\ handlePressureChange 0.035%float
     = Some (computeBuildingPressure building_pressure_reading).
Proof.
  split; [reflexivity|].
  exact (building_pressure_preview_agrees building_pressure_reading 0.035%float eq_refl).
Defined.

Lemma airflow_preview_agrees_witness :
  supplyCFM airflow_without_return = Some 750%float
  /\ tons airflow_without_return = Some 2%float
  /\ extStatic_inwc airflow_without_return = Some 0.8%float
  /\ exists preview,
       AirflowStaticForm_computed 750%float 2%float 0.8%float = Some preview
       /\ ComputedResult.pass preview
          = ComputedResult.pass (computeAirflowStatic airflow_without_return).
Proof.
  split; [reflexivity|]. split; [reflexivity|]. split; [reflexivity|].
  pose proof (airflow_preview_agrees airflow_without_return 750%float 2%float 0.8%float
                eq_refl eq_refl eq_refl) as H.
  destruct (AirflowStaticForm_computed 750%float 2%float 0.8%float) as [preview|];
    [|discriminate H].
  exists preview. split; [reflexivity|]. exact (proj1 (proj2 (proj2 H))).
Defined.

Lemma coil_preview_is_stricter_witness :
  returnDB_F coil_reading = Some 75%float
  /\ returnRH_pct coil_reading = Some 55%float
  /\ supplyDB_F coil_reading = Some 58%float
  /\ supplyRH_pct coil_reading = Some 85%float
  /\ exists preview,
       CoilPerformanceForm_computed 75%float 55%float 58%float 85%float None = Some preview
       /\ keys (ComputedResult.checks preview)
          = ["supply_dew_point"; "temperature_drop"; "humidity_performance"]%string.
Proof.
  split; [reflexivity|]. split; [reflexivity|]. split; [reflexivity|]. split; [reflexivity|].
  pose proof (coil_preview_is_stricter coil_reading 75%float 55%float 58%float 85%float
                eq_refl eq_refl eq_refl eq_refl) as H.
  change (condensateVolume_oz_per_30min coil_reading) with (@None float) in H.
  destruct (CoilPerformanceForm_computed 75%float 55%float 58%float 85%float None)
    as [preview|]; [|discriminate H].
  exists preview. split; [reflexivity|]. exact (proj1 (proj2 H)).
Defined.


Lemma testsByType_counts_witness :
  Forall (fun test => recognized (TestResult.testType test) = true) three_tests
  /\ get (testsByType three_tests) "BUILDING_PRESSURE" = Some 2%nat
  /\ get (testsByType three_tests) "PRESSURE_DECAY" = None
  /\ total (testsByType three_tests) = 3%nat.
Proof.
  assert (H : Forall (fun test => recognized (TestResult.testType test) = true) three_tests)
    by (repeat constructor).
  split; [exact H|].
  split; [exact (proj1 (testsByType_counts three_tests "BUILDING_PRESSURE" H))|].
  split; [exact (proj1 (testsByType_counts three_tests "PRESSURE_DECAY" H))|].
  exact (proj2 (testsByType_counts three_tests "BUILDING_PRESSURE" H)).
Defined.


Lemma passFailStats_counts_witness :
  PassFailStats.pass (passFailStats three_tests) = 1%nat
  /\ PassFailStats.fail (passFailStats three_tests) = 1%nat
  /\ PassFailStats.pending (passFailStats three_tests) = 1%nat
  /\ (PassFailStats.pass (passFailStats three_tests)
      + PassFailStats.fail (passFailStats three_tests)
      + PassFailStats.pending (passFailStats three_tests))%nat = 3%nat.
Proof. exact (passFailStats_counts three_tests). Defined.


End Further_examples.


